(** * Booking and payment lifecycle of the events/activities server

    A shallow embedding of the booking controller
    ([controllers/booking.controller.ts]), the payment service
    ([services/payment.service.ts]), the event controller's join/leave
    handlers ([controllers/event.controller.ts]), the [EventService] methods
    [cancelEvent], [publishEvent], [deleteEvent] and [getEventById]
    ([services/event.service.ts]), the [authenticate] middleware and the
    Mongoose models they run on ([models/booking.model.ts],
    [models/event.model.ts]).

    Conventions of the embedding.
    - A Mongoose collection is the list of its documents in insertion
      order; [findOne] returns the first match.
    - An [ObjectId] is a natural number; a fresh one is drawn from a counter
      kept in the store.
    - A JavaScript [number] holding a count is a [Z]; one holding money is an
      exact rational [Q] (dollars) or a [Z] (gateway minor units).
      [Math.round x] is [Qfloor (x + 1/2)]; what is stated of a rounded
      amount is stated for amounts of whole cents, where exact and double
      precision arithmetic agree.
    - Times are integers on one scale: the [date] of an event, the time of a
      request, and the time the server process loaded the schema modules,
      which the store carries for the [date] validator.
    - An [async] function is a computation in the monad [M]: it threads the
      store and may throw a message.  Writes made before a throw persist, as
      the source opens no transaction.
    - The payment gateway is a record of oracles: [None] is a rejected
      gateway call. *)

From Stdlib Require Import ZArith QArith Qround List String Bool Lia.
Import ListNotations.
Open Scope string_scope.
Open Scope Z_scope.

Set Implicit Arguments.

(** ** Documents *)

Definition ObjectId := nat.
Bind Scope nat_scope with ObjectId.

(** [booking.model.ts], the [status] and [paymentStatus] enums. *)
Inductive BookingStatus :=
  B_pending | B_confirmed | B_cancelled | B_completed | B_refunded | B_disputed.

Inductive PaymentStatus := P_pending | P_paid | P_failed | P_refunded.

(** [event.model.ts], the [status] enum. *)
Inductive EventStatus := E_draft | E_open | E_full | E_cancelled | E_completed.

(** [role.middleware.ts], [enum UserRole]. *)
Inductive UserRole := USER | HOST | ADMIN.

Definition BookingStatus_eqb (a b : BookingStatus) : bool :=
  match a, b with
  | B_pending, B_pending | B_confirmed, B_confirmed | B_cancelled, B_cancelled
  | B_completed, B_completed | B_refunded, B_refunded | B_disputed, B_disputed => true
  | _, _ => false
  end.

Definition PaymentStatus_eqb (a b : PaymentStatus) : bool :=
  match a, b with
  | P_pending, P_pending | P_paid, P_paid | P_failed, P_failed
  | P_refunded, P_refunded => true
  | _, _ => false
  end.

Definition EventStatus_eqb (a b : EventStatus) : bool :=
  match a, b with
  | E_draft, E_draft | E_open, E_open | E_full, E_full
  | E_cancelled, E_cancelled | E_completed, E_completed => true
  | _, _ => false
  end.

Definition UserRole_eqb (a b : UserRole) : bool :=
  match a, b with
  | USER, USER | HOST, HOST | ADMIN, ADMIN => true
  | _, _ => false
  end.

(** The string a request carries for a booking status, read against the
    schema's enum. *)
Definition parse_BookingStatus (s : string) : option BookingStatus :=
  if String.eqb s "pending" then Some B_pending
  else if String.eqb s "confirmed" then Some B_confirmed
  else if String.eqb s "cancelled" then Some B_cancelled
  else if String.eqb s "completed" then Some B_completed
  else if String.eqb s "refunded" then Some B_refunded
  else if String.eqb s "disputed" then Some B_disputed
  else None.

(** A stored booking ([IBooking]).  The paths the schema marks [required]
    are plain fields; the optional ones are options. *)
Record Booking := mkBooking {
  b_id : ObjectId;
  userId : ObjectId;
  eventId : ObjectId;
  hostId : ObjectId;
  status : BookingStatus;
  paymentStatus : PaymentStatus;
  paymentIntentId : option string;
  amount : Q;
  quantity : Z;
  currency : string;
  refundId : option string;
  refundAmount : option Q;
  refundReason : option string;
  specialRequests : option string;
  notes : option string
}.

(** The object literal handed to [new Booking(...)] or [Booking.create(...)]:
    every path may be left out. *)
Record BookingInput := mkBookingInput {
  in_userId : option ObjectId;
  in_eventId : option ObjectId;
  in_hostId : option ObjectId;
  in_status : option BookingStatus;
  in_paymentStatus : option PaymentStatus;
  in_paymentIntentId : option string;
  in_amount : option Q;
  in_quantity : option Z;
  in_currency : option string;
  in_specialRequests : option string;
  in_notes : option string
}.

(** A stored event ([IEvent]), with the paths the booking engine reads or
    writes.  [date] is a timestamp. *)
Record Event := mkEvent {
  e_id : ObjectId;
  e_hostId : ObjectId;
  date : Z;
  maxParticipants : Z;
  currentParticipants : Z;
  price : Q;
  e_status : EventStatus;
  participants : list ObjectId;
  waitingList : list ObjectId
}.

(** A stored user ([IUser]), with the paths the booking engine reads or
    writes. *)
Record User := mkUser {
  u_id : ObjectId;
  role : UserRole;
  joinedEvents : list ObjectId
}.

(** The state the server works on: the three collections of the
    database, the source of fresh ids, and the time at which the process
    loaded the schema modules.  [eventSchema] evaluates [new Date()] once,
    then, for the [min] of its [date] path ([models/event.model.ts], lines
    60-64); no operation changes it. *)
Record Store := mkStore {
  events : list Event;
  bookings : list Booking;
  users : list User;
  nextId : ObjectId;
  loadedAt : Z
}.

Definition with_events (f : list Event -> list Event) (s : Store) : Store :=
  mkStore (f (events s)) (bookings s) (users s) (nextId s) (loadedAt s).

Definition with_bookings (f : list Booking -> list Booking) (s : Store) : Store :=
  mkStore (events s) (f (bookings s)) (users s) (nextId s) (loadedAt s).

Definition with_users (f : list User -> list User) (s : Store) : Store :=
  mkStore (events s) (bookings s) (f (users s)) (nextId s) (loadedAt s).

(** Field updates of an in-memory document. *)
Definition set_status (v : BookingStatus) (b : Booking) : Booking :=
  mkBooking (b_id b) (userId b) (eventId b) (hostId b) v (paymentStatus b)
    (paymentIntentId b) (amount b) (quantity b) (currency b) (refundId b)
    (refundAmount b) (refundReason b) (specialRequests b) (notes b).

Definition set_paymentStatus (v : PaymentStatus) (b : Booking) : Booking :=
  mkBooking (b_id b) (userId b) (eventId b) (hostId b) (status b) v
    (paymentIntentId b) (amount b) (quantity b) (currency b) (refundId b)
    (refundAmount b) (refundReason b) (specialRequests b) (notes b).

Definition set_refund (rid : option string) (ramount : option Q)
    (rreason : option string) (b : Booking) : Booking :=
  mkBooking (b_id b) (userId b) (eventId b) (hostId b) (status b)
    (paymentStatus b) (paymentIntentId b) (amount b) (quantity b)
    (currency b) rid ramount rreason (specialRequests b) (notes b).

Definition set_specialRequests (v : option string) (b : Booking) : Booking :=
  mkBooking (b_id b) (userId b) (eventId b) (hostId b) (status b)
    (paymentStatus b) (paymentIntentId b) (amount b) (quantity b)
    (currency b) (refundId b) (refundAmount b) (refundReason b) v (notes b).

Definition set_notes (v : option string) (b : Booking) : Booking :=
  mkBooking (b_id b) (userId b) (eventId b) (hostId b) (status b)
    (paymentStatus b) (paymentIntentId b) (amount b) (quantity b)
    (currency b) (refundId b) (refundAmount b) (refundReason b)
    (specialRequests b) v.

Definition set_e_status (v : EventStatus) (e : Event) : Event :=
  mkEvent (e_id e) (e_hostId e) (date e) (maxParticipants e)
    (currentParticipants e) (price e) v (participants e) (waitingList e).

Definition set_currentParticipants (v : Z) (e : Event) : Event :=
  mkEvent (e_id e) (e_hostId e) (date e) (maxParticipants e) v (price e)
    (e_status e) (participants e) (waitingList e).

Definition set_participants (v : list ObjectId) (e : Event) : Event :=
  mkEvent (e_id e) (e_hostId e) (date e) (maxParticipants e)
    (currentParticipants e) (price e) (e_status e) v (waitingList e).

Definition set_waitingList (v : list ObjectId) (e : Event) : Event :=
  mkEvent (e_id e) (e_hostId e) (date e) (maxParticipants e)
    (currentParticipants e) (price e) (e_status e) (participants e) v.

Definition set_joinedEvents (v : list ObjectId) (u : User) : User :=
  mkUser (u_id u) (role u) v.

(** Array helpers of Mongoose arrays: [includes], [push], [pull]. *)
Definition includes (l : list ObjectId) (x : ObjectId) : bool :=
  existsb (Nat.eqb x) l.

Definition push (l : list ObjectId) (x : ObjectId) : list ObjectId := l ++ [x].

Definition pull (l : list ObjectId) (x : ObjectId) : list ObjectId :=
  filter (fun y => negb (Nat.eqb y x)) l.

(** ** Numbers *)

(** [Math.round]: the nearest integer, halves upwards.  JavaScript numbers
    are modelled by the rationals they stand for, and arithmetic on them is
    exact; the code computes in double precision.  The two agree on what the
    theorems below state of a rounded amount: an amount of whole cents
    ([n / 100] for an integer [n]) times 100 rounds to [n] either way, and a
    bound that holds of whatever amount the gateway was asked for does not
    depend on the rounding.  No statement fixes what an amount with a
    fraction of a cent rounds to. *)
Definition Math_round (x : Q) : Z := Qfloor (x + (1 # 2)).

(** Truthiness of a JavaScript number that is not NaN. *)
Definition truthy_number (x : Q) : bool := negb (Qeq_bool x 0).

(** Truthiness of a JavaScript string. *)
Definition truthy_string (x : string) : bool := negb (String.eqb x EmptyString).

Definition Qlt_bool (x y : Q) : bool := negb (Qle_bool y x).

Definition option_string_eqb (a b : option string) : bool :=
  match a, b with
  | Some x, Some y => String.eqb x y
  | None, None => true
  | _, _ => false
  end.

(** ** Schema validation *)

Definition maxlength (n : nat) (v : option string) : bool :=
  match v with
  | Some x => Nat.leb (String.length x) n
  | None => true
  end.

Definition min_number (m : Q) (v : option Q) : bool :=
  match v with
  | Some x => Qle_bool m x
  | None => true
  end.

(** [bookingSchema]: the value validators of a document whose required
    paths are present: [amount] min 0, [quantity] min 1, [refundAmount]
    min 0, and the three [maxlength] bounds. *)
Definition bookingSchema_validate (b : Booking) : bool :=
  Qle_bool 0 (amount b) && (1 <=? quantity b)
  && min_number 0 (refundAmount b)
  && maxlength 500 (refundReason b)
  && maxlength 500 (specialRequests b)
  && maxlength 1000 (notes b).

(** [new Booking(input)] under [bookingSchema]: the paths declared
    [required: true] ([userId], [eventId], [hostId], [amount], [quantity];
    [models/booking.model.ts], lines 26-40 and 59-68) must be present, and the
    schema defaults ([status] and [paymentStatus] 'pending', [currency]
    'usd') fill the rest.  [None] when a required path is missing: Mongoose
    then fails the validation that precedes every insertion. *)
Definition new_Booking (id : ObjectId) (i : BookingInput) : option Booking :=
  match in_userId i, in_eventId i, in_hostId i, in_amount i, in_quantity i with
  | Some u, Some e, Some h, Some a, Some q =>
      Some (mkBooking id u e h
              (match in_status i with Some v => v | None => B_pending end)
              (match in_paymentStatus i with Some v => v | None => P_pending end)
              (in_paymentIntentId i) a q
              (match in_currency i with Some c => c | None => "usd" end)
              None None None (in_specialRequests i) (in_notes i))
  | _, _, _, _, _ => None
  end.

(** [eventSchema]: the validators of the modelled paths, which
    [save()] runs on every path of a loaded document: [date] not before
    [loaded], the time the schema module was loaded ([min: new Date()]),
    [currentParticipants] min 0, [maxParticipants] in 1..1000, [price] in
    0..10000.  The paths this record does not carry are taken to be
    valid. *)
Definition eventSchema_validate (loaded : Z) (e : Event) : bool :=
  (loaded <=? date e)
  && (0 <=? currentParticipants e)
  && (1 <=? maxParticipants e) && (maxParticipants e <=? 1000)
  && Qle_bool 0 (price e) && Qle_bool (price e) 10000.

(** [eventSchema.pre('save')] ([models/event.model.ts], lines
    174-181). *)
Definition eventSchema_pre_save (e : Event) : Event :=
  if currentParticipants e >=? maxParticipants e then set_e_status E_full e
  else if EventStatus_eqb (e_status e) E_full
          && (currentParticipants e <? maxParticipants e)
       then set_e_status E_open e
       else e.

(** ** The monad of asynchronous operations *)

Inductive Result (A : Type) : Type :=
| Ok (a : A)
| Throw (msg : string).

Arguments Ok {A} a.
Arguments Throw {A} msg.

Definition M (A : Type) : Type := Store -> Result A * Store.

Definition ret {A} (a : A) : M A := fun s => (Ok a, s).

Definition throw {A} (msg : string) : M A := fun s => (Throw msg, s).

Definition bind {A B} (m : M A) (k : A -> M B) : M B :=
  fun s =>
    match m s with
    | (Ok a, s') => k a s'
    | (Throw e, s') => (Throw e, s')
    end.

(** [try { m } catch (error) { h error.message }]. *)
Definition try_catch {A} (m : M A) (h : string -> M A) : M A :=
  fun s =>
    match m s with
    | (Ok a, s') => (Ok a, s')
    | (Throw e, s') => h e s'
    end.

Declare Scope monad_scope.
Delimit Scope monad_scope with monad.
Notation "x <- c1 ;; c2" := (bind c1 (fun x => c2))
  (at level 61, c1 at next level, right associativity) : monad_scope.
Notation "c1 ;;; c2" := (bind c1 (fun _ => c2))
  (at level 61, right associativity) : monad_scope.
Open Scope monad_scope.

(** ** Mongoose model operations *)

(** The write of the document with a given [_id]. *)
Definition update_by_id {D : Type} (get_id : D -> ObjectId) (id : ObjectId)
    (f : D -> D) (l : list D) : list D :=
  map (fun d => if Nat.eqb (get_id d) id then f d else d) l.

(** The messages of the errors Mongoose and the gateway client throw.
    A validation message goes on to list the offending paths; its heading
    stands for it, which names the model for a document and no model for an
    update. *)
Definition ValidationError_Booking : string := "Booking validation failed".
Definition ValidationError_Event : string := "Event validation failed".
Definition ValidationError_update : string := "Validation failed".
Definition DuplicateKeyError : string := "E11000 duplicate key error".
Definition GatewayError : string := "Stripe request failed".

Definition Event_findById (id : ObjectId) : M (option Event) :=
  fun s => (Ok (find (fun e => Nat.eqb (e_id e) id) (events s)), s).

(** [event.save()] of a loaded document whose modified paths are [paths]:
    validation first, then the [pre('save')] hook, then the write of the
    document with this [_id]. *)
Definition Event_save (event : Event) (paths : Event -> Event) : M unit :=
  fun s =>
    if eventSchema_validate (loadedAt s) (paths event)
    then (Ok tt,
          with_events
            (update_by_id e_id (e_id event)
               (fun e => eventSchema_pre_save (paths e))) s)
    else (Throw ValidationError_Event, s).

(** [Event.findByIdAndUpdate(id, { $inc: { currentParticipants: n } })]:
    an update sent to the database, which runs neither validators nor the
    [pre('save')] hook. *)
Definition Event_findByIdAndUpdate_inc (id : ObjectId) (n : Z) : M unit :=
  fun s =>
    (Ok tt,
     with_events
       (update_by_id e_id id
          (fun e => set_currentParticipants (currentParticipants e + n) e)) s).

Definition Booking_findById (id : ObjectId) : M (option Booking) :=
  fun s => (Ok (find (fun b => Nat.eqb (b_id b) id) (bookings s)), s).

Definition Booking_findOne (query : Booking -> bool) : M (option Booking) :=
  fun s => (Ok (find query (bookings s)), s).

Definition Booking_countDocuments (query : Booking -> bool) : M Z :=
  fun s => (Ok (Z.of_nat (List.length (filter query (bookings s)))), s).

(** The unique index [{ userId: 1, eventId: 1 }] of [bookingSchema]
    ([models/booking.model.ts], line 109). *)
Definition same_user_event (a b : Booking) : bool :=
  Nat.eqb (userId a) (userId b) && Nat.eqb (eventId a) (eventId b).

(** [Booking.create(input)], and [new Booking(input)] followed by
    [save()]: Mongoose validates the document, then the database checks the
    unique index and inserts. *)
Definition Booking_create (input : BookingInput) : M Booking :=
  fun s =>
    match new_Booking (nextId s) input with
    | None => (Throw ValidationError_Booking, s)
    | Some b =>
        if negb (bookingSchema_validate b) then (Throw ValidationError_Booking, s)
        else if existsb (same_user_event b) (bookings s)
        then (Throw DuplicateKeyError, s)
        else (Ok b, mkStore (events s) (bookings s ++ [b]) (users s) (S (nextId s))
                      (loadedAt s))
    end.

(** [booking.save()] of a loaded document whose modified paths are
    [paths]: validation, then the write of the document with this [_id]. *)
Definition Booking_save (booking : Booking) (paths : Booking -> Booking) : M unit :=
  fun s =>
    if bookingSchema_validate (paths booking)
    then (Ok tt, with_bookings (update_by_id b_id (b_id booking) paths) s)
    else (Throw ValidationError_Booking, s).

Definition User_findById (id : ObjectId) : M (option User) :=
  fun s => (Ok (find (fun u => Nat.eqb (u_id u) id) (users s)), s).

(** [user.save()]; the user document's other paths are taken to be valid. *)
Definition User_save (user : User) (paths : User -> User) : M unit :=
  fun s =>
    (Ok tt, with_users (update_by_id u_id (u_id user) paths) s).

(** The update validators of [{ status, specialRequests, notes }]: the
    [status] enum and the two [maxlength] bounds, on the keys that are
    present. *)
Definition update_validators (st sr nt : option string) : bool :=
  match st with
  | Some v => match parse_BookingStatus v with Some _ => true | None => false end
  | None => true
  end
  && maxlength 500 sr && maxlength 1000 nt.

(** The paths [{ status, specialRequests, notes }] sets: the keys left
    [undefined] are dropped from the update (Mongoose 6 and later). *)
Definition update_paths (st sr nt : option string) (b : Booking) : Booking :=
  let b1 := match st with
            | Some v => match parse_BookingStatus v with
                        | Some v' => set_status v' b
                        | None => b
                        end
            | None => b
            end in
  let b2 := match sr with Some _ => set_specialRequests sr b1 | None => b1 end in
  match nt with Some _ => set_notes nt b2 | None => b2 end.

(** [Booking.findByIdAndUpdate(id, { status, specialRequests, notes },
    { new: true, runValidators: true })]; the error of an update validator
    names no model. *)
Definition Booking_findByIdAndUpdate (id : ObjectId)
    (st sr nt : option string) : M unit :=
  fun s =>
    if update_validators st sr nt
    then (Ok tt, with_bookings (update_by_id b_id id (update_paths st sr nt)) s)
    else (Throw ValidationError_update, s).

(** [Booking.updateMany(query, { status })]: no validators run. *)
Definition Booking_updateMany (query : Booking -> bool) (v : BookingStatus) : M unit :=
  fun s =>
    (Ok tt, with_bookings (map (fun b => if query b then set_status v b else b)) s).

(** ** HTTP responses *)

(** Modelled from the spec: the helpers [successResponse] and
    [errorResponse] of [utils/response] are not among the sources.  A
    response is the 'structured failure with a stable error code' of the
    specification, or a success: which helper was called, with the message
    and the status code its caller passes.  Several handlers call
    [successResponse] without a status code. *)
Inductive Response :=
| successResponse (message : string) (statusCode : option Z)
| errorResponse (message : string) (statusCode : Z).

Definition is_error (r : Response) : bool :=
  match r with
  | successResponse _ _ => false
  | errorResponse _ _ => true
  end.

(** ** The payment gateway *)

(** The metadata of a payment intent.  [m_eventId] and [m_userId] are
    [Some] when the string is present and not empty, and hold the id it
    denotes; [m_quantity] holds what [parseInt] reads from the string. *)
Record Metadata := mkMetadata {
  m_eventId : option ObjectId;
  m_userId : option ObjectId;
  m_bookingId : option string;
  m_quantity : option Z
}.

Record PaymentIntent := mkPaymentIntent {
  pi_id : string;
  pi_status : string;
  pi_amount : Z;
  pi_currency : string;
  pi_client_secret : string;
  pi_metadata : Metadata
}.

(** The gateway (Stripe), by the three calls the payment service makes:
    [paymentIntents.create], [paymentIntents.retrieve] and [refunds.create].
    [None] is a call that throws.  [refunds_create] returns the id of the
    refund. *)
Record Stripe := mkStripe {
  paymentIntents_create : Z -> string -> Metadata -> option PaymentIntent;
  paymentIntents_retrieve : option string -> option PaymentIntent;
  refunds_create : option string -> Z -> option string
}.

(** A decoded webhook event. *)
Inductive StripeEvent :=
| payment_intent_succeeded (paymentIntent : PaymentIntent)
| payment_intent_payment_failed (paymentIntent : PaymentIntent)
| charge_dispute_created (payment_intent : option string)
| unhandled_event (type : string).

Record PaymentIntentResponse := mkPaymentIntentResponse {
  clientSecret : string;
  resp_paymentIntentId : string;
  resp_amount : Z;
  resp_currency : string
}.

Record RefundData := mkRefundData {
  rd_bookingId : ObjectId;
  rd_reason : option string;
  rd_amount : option Q
}.

Definition is_owner_host_or_admin (booking : Booking) (req_user : User) : bool :=
  Nat.eqb (userId booking) (u_id req_user)
  || Nat.eqb (hostId booking) (u_id req_user)
  || UserRole_eqb (role req_user) ADMIN.

Definition is_host_or_admin (booking : Booking) (req_user : User) : bool :=
  Nat.eqb (hostId booking) (u_id req_user) || UserRole_eqb (role req_user) ADMIN.

Section Server.

(** The gateway the service talks to, and [config.stripe.currency]. *)
Variable stripe : Stripe.
Variable config_currency : string.

Definition stripe_retrieve (id : option string) : M PaymentIntent :=
  match paymentIntents_retrieve stripe id with
  | Some paymentIntent => ret paymentIntent
  | None => throw GatewayError
  end.

Definition stripe_refund (id : option string) (cents : Z) : M string :=
  match refunds_create stripe id cents with
  | Some refund_id => ret refund_id
  | None => throw GatewayError
  end.

(** *** [PaymentService] *)

(** [PaymentService.createPaymentIntent] ([services/payment.service.ts],
    lines 38-88), at time [now]. *)
Definition createPaymentIntent (now : Z) (eventId' userId' : ObjectId) (quantity' : Z)
  : M PaymentIntentResponse :=
  event <- Event_findById eventId' ;;
  match event with
  | None => throw "Event not found"
  | Some event =>
    if negb (EventStatus_eqb (e_status event) E_open)
    then throw "Event is not available for booking"
    else if date event <? now then throw "Cannot book past events"
    else
      currentBookingsCount <-
        Booking_countDocuments
          (fun b => Nat.eqb (eventId b) eventId'
                    && negb (BookingStatus_eqb (status b) B_cancelled)) ;;
      if currentBookingsCount + quantity' >? maxParticipants event
      then throw "Not enough spots available"
      else
        let amount' := Math_round (price event * inject_Z quantity' * 100) in
        match paymentIntents_create stripe amount' config_currency
                (mkMetadata (Some eventId') (Some userId') None (Some quantity')) with
        | None => throw GatewayError
        | Some paymentIntent =>
            ret (mkPaymentIntentResponse (pi_client_secret paymentIntent)
                   (pi_id paymentIntent) amount' config_currency)
        end
  end.

(** The document both confirmation paths build from a succeeded intent
    ([services/payment.service.ts], lines 121-132 and 386-397): it carries
    no [hostId]. *)
Definition booking_of_intent (paymentIntentId' : string) (paymentIntent : PaymentIntent)
    (eventId' userId' : ObjectId) (quantity' : Z) : BookingInput :=
  mkBookingInput (Some userId') (Some eventId') None
    (Some B_confirmed) (Some P_paid) (Some paymentIntentId')
    (Some (pi_amount paymentIntent # 100)) (Some quantity')
    (Some (pi_currency paymentIntent)) None None.

(** [PaymentService.confirmPayment] ([services/payment.service.ts],
    lines 90-145). *)
Definition confirmPayment (paymentIntentId' : string) : M unit :=
  try_catch
    (paymentIntent <- stripe_retrieve (Some paymentIntentId') ;;
     if negb (String.eqb (pi_status paymentIntent) "succeeded")
     then throw "Payment not successful"
     else
       let metadata := pi_metadata paymentIntent in
       match m_eventId metadata, m_userId metadata, m_quantity metadata with
       | Some eventId', Some userId', Some quantity' =>
           existingBooking <-
             Booking_findOne
               (fun b => option_string_eqb (paymentIntentId b) (Some paymentIntentId')
                         && negb (BookingStatus_eqb (status b) B_cancelled)) ;;
           match existingBooking with
           | Some _ => throw "Booking already exists for this payment"
           | None =>
               _ <- Booking_create
                      (booking_of_intent paymentIntentId' paymentIntent
                         eventId' userId' quantity') ;;
               Event_findByIdAndUpdate_inc eventId' quantity'
           end
       | _, _, _ => throw "Invalid payment metadata"
       end)
    (fun _ => throw "Failed to confirm payment").

(** The minor-unit amount [processRefund] asks the gateway to refund. *)
Definition refund_cents (requested : option Q) (paymentIntent : PaymentIntent) : Z :=
  match requested with
  | Some a => if truthy_number a then Math_round (a * 100) else pi_amount paymentIntent
  | None => pi_amount paymentIntent
  end.

(** [PaymentService.processRefund] ([services/payment.service.ts], lines
    147-200). *)
Definition processRefund (data : RefundData) : M unit :=
  booking <- Booking_findById (rd_bookingId data) ;;
  match booking with
  | None => throw "Booking not found"
  | Some booking =>
    if BookingStatus_eqb (status booking) B_cancelled
    then throw "Booking already cancelled"
    else if negb (PaymentStatus_eqb (paymentStatus booking) P_paid)
    then throw "No payment to refund"
    else
      try_catch
        (paymentIntent <- stripe_retrieve (paymentIntentId booking) ;;
         let refundAmount' := refund_cents (rd_amount data) paymentIntent in
         refund <- stripe_refund (paymentIntentId booking) refundAmount' ;;
         Booking_save booking
           (fun b => set_refund (Some refund) (Some (refundAmount' # 100)) (rd_reason data)
                       (set_paymentStatus P_refunded (set_status B_cancelled b))) ;;;
         Event_findByIdAndUpdate_inc (eventId booking) (- quantity booking))
        (fun _ => throw "Failed to process refund")
  end.

(** [PaymentService.handlePaymentSucceeded]
    ([services/payment.service.ts], lines 364-406).  Nothing catches what it
    throws. *)
Definition handlePaymentSucceeded (paymentIntent : PaymentIntent) : M unit :=
  let metadata := pi_metadata paymentIntent in
  match m_eventId metadata, m_userId metadata, m_quantity metadata with
  | Some eventId', Some userId', Some quantity' =>
      existingBooking <-
        Booking_findOne
          (fun b => option_string_eqb (paymentIntentId b) (Some (pi_id paymentIntent))
                    && negb (BookingStatus_eqb (status b) B_cancelled)) ;;
      match existingBooking with
      | Some _ => ret tt
      | None =>
          _ <- Booking_create
                 (booking_of_intent (pi_id paymentIntent) paymentIntent
                    eventId' userId' quantity') ;;
          Event_findByIdAndUpdate_inc eventId' quantity'
      end
  | _, _, _ => ret tt
  end.

(** [PaymentService.handlePaymentFailed] only logs. *)
Definition handlePaymentFailed (paymentIntent : PaymentIntent) : M unit := ret tt.

(** [PaymentService.handleDisputeCreated]
    ([services/payment.service.ts], lines 416-431).  The query
    [{ paymentIntentId: dispute.payment_intent }] with a null intent matches
    the documents that have no [paymentIntentId]. *)
Definition handleDisputeCreated (payment_intent : option string) : M unit :=
  booking <- Booking_findOne
               (fun b => option_string_eqb (paymentIntentId b) payment_intent) ;;
  match booking with
  | Some booking => Booking_save booking (set_status B_disputed)
  | None => ret tt
  end.

(** [PaymentService.handleWebhook]. *)
Definition handleWebhook (event : StripeEvent) : M unit :=
  match event with
  | payment_intent_succeeded paymentIntent => handlePaymentSucceeded paymentIntent
  | payment_intent_payment_failed paymentIntent => handlePaymentFailed paymentIntent
  | charge_dispute_created payment_intent => handleDisputeCreated payment_intent
  | unhandled_event _ => ret tt
  end.

(** *** The booking controller *)

(** The body of [POST /api/bookings].  The handler destructures [eventId],
    [specialRequests] and [notes]; a [quantity] sent along is not read. *)
Record CreateBookingBody := mkCreateBookingBody {
  cb_eventId : ObjectId;
  cb_quantity : option Z;
  cb_specialRequests : option string;
  cb_notes : option string
}.

(** The document [createBooking] hands to [Booking.create]: it carries
    no [quantity], and its [amount] is the event's price. *)
Definition booking_of_request (req_user : User) (body : CreateBookingBody) (event : Event)
  : BookingInput :=
  mkBookingInput (Some (u_id req_user)) (Some (cb_eventId body)) (Some (e_hostId event))
    (Some (if Qlt_bool 0 (price event) then B_pending else B_confirmed))
    (Some (if Qlt_bool 0 (price event) then P_pending else P_paid))
    None (Some (price event)) None None (cb_specialRequests body) (cb_notes body).

(** [createBooking] ([controllers/booking.controller.ts]). *)
Definition createBooking (req_user : User) (body : CreateBookingBody) : M Response :=
  try_catch
    (event <- Event_findById (cb_eventId body) ;;
     match event with
     | None => ret (errorResponse "Event not found" 404)
     | Some event =>
       if negb (EventStatus_eqb (e_status event) E_open)
       then ret (errorResponse "Event is not open for booking" 400)
       else if currentParticipants event >=? maxParticipants event
       then ret (errorResponse "Event is full" 400)
       else
         existingBooking <-
           Booking_findOne
             (fun b => Nat.eqb (userId b) (u_id req_user)
                       && Nat.eqb (eventId b) (cb_eventId body)) ;;
         match existingBooking with
         | Some _ => ret (errorResponse "You already have a booking for this event" 400)
         | None =>
             _ <- Booking_create (booking_of_request req_user body event) ;;
             (if Qeq_bool (price event) 0
              then
                Event_save event
                  (fun e => set_currentParticipants (currentParticipants e + 1)
                              (set_participants (push (participants e) (u_id req_user)) e)) ;;;
                User_save req_user
                  (fun u => set_joinedEvents (push (joinedEvents u) (e_id event)) u)
              else ret tt) ;;;
             ret (successResponse "Booking created successfully" (Some 201))
         end
     end)
    (fun error => ret (errorResponse error 500)).

(** The controller's [createPaymentIntent]
    ([controllers/booking.controller.ts]): [quantity] defaults to 1. *)
Definition createPaymentIntent_handler (now : Z) (req_user : User)
    (eventId' : option ObjectId) (quantity' : option Z) : M Response :=
  try_catch
    (match eventId' with
     | None => ret (errorResponse "Event ID is required" 400)
     | Some eventId' =>
         _ <- createPaymentIntent now eventId' (u_id req_user)
                (match quantity' with Some q => q | None => 1 end) ;;
         ret (successResponse "Payment intent created successfully" (Some 201))
     end)
    (fun error => ret (errorResponse error 500)).

(** [updateBooking] ([controllers/booking.controller.ts]). *)
Definition updateBooking (req_user : User) (id : ObjectId)
    (status' : option string) (specialRequests' notes' : option string) : M Response :=
  try_catch
    (booking <- Booking_findById id ;;
     match booking with
     | None => ret (errorResponse "Booking not found" 404)
     | Some booking =>
       if negb (is_owner_host_or_admin booking req_user)
       then ret (errorResponse "Access denied" 403)
       else if match status' with Some v => truthy_string v | None => false end
               && negb (is_host_or_admin booking req_user)
       then ret (errorResponse "Only hosts can change booking status" 403)
       else
         Booking_findByIdAndUpdate id status' specialRequests' notes' ;;;
         ret (successResponse "Booking updated successfully" None)
     end)
    (fun error => ret (errorResponse error 500)).

(** [cancelBooking] ([controllers/booking.controller.ts]). *)
Definition cancelBooking (req_user : User) (id : ObjectId) : M Response :=
  try_catch
    (booking <- Booking_findById id ;;
     match booking with
     | None => ret (errorResponse "Booking not found" 404)
     | Some booking =>
       if negb (is_owner_host_or_admin booking req_user)
       then ret (errorResponse "Access denied" 403)
       else
         (if BookingStatus_eqb (status booking) B_confirmed
          then
            event <- Event_findById (eventId booking) ;;
            match event with
            | Some event =>
                Event_save event
                  (fun e =>
                     let e1 := set_currentParticipants (currentParticipants e - 1)
                                 (set_participants (pull (participants e) (userId booking)) e) in
                     if EventStatus_eqb (e_status e1) E_full
                     then set_e_status E_open e1 else e1)
            | None => ret tt
            end ;;;
            user <- User_findById (userId booking) ;;
            match user with
            | Some user =>
                User_save user
                  (fun u => set_joinedEvents (pull (joinedEvents u) (eventId booking)) u)
            | None => ret tt
            end
          else ret tt) ;;;
         Booking_save booking (set_status B_cancelled) ;;;
         ret (successResponse "Booking cancelled successfully" None)
     end)
    (fun error => ret (errorResponse error 500)).

(** [confirmBooking] ([controllers/booking.controller.ts]). *)
Definition confirmBooking (req_user : User) (id : ObjectId) : M Response :=
  try_catch
    (booking <- Booking_findById id ;;
     match booking with
     | None => ret (errorResponse "Booking not found" 404)
     | Some booking =>
       if negb (is_host_or_admin booking req_user)
       then ret (errorResponse "Access denied. Only hosts can confirm bookings" 403)
       else if negb (BookingStatus_eqb (status booking) B_pending)
       then ret (errorResponse "Booking cannot be confirmed" 400)
       else if negb (PaymentStatus_eqb (paymentStatus booking) P_paid)
       then ret (errorResponse "Payment must be completed before confirming booking" 400)
       else
         Booking_save booking (set_status B_confirmed) ;;;
         event <- Event_findById (eventId booking) ;;
         match event with
         | Some event =>
             (if negb (includes (participants event) (userId booking))
              then
                Event_save event
                  (fun e => set_currentParticipants (currentParticipants e + 1)
                              (set_participants (push (participants e) (userId booking)) e))
              else ret tt) ;;;
             user <- User_findById (userId booking) ;;
             match user with
             | Some user =>
                 if negb (includes (joinedEvents user) (e_id event))
                 then User_save user
                        (fun u => set_joinedEvents (push (joinedEvents u) (e_id event)) u)
                 else ret tt
             | None => ret tt
             end
         | None => ret tt
         end ;;;
         ret (successResponse "Booking confirmed successfully" None)
     end)
    (fun error => ret (errorResponse error 500)).

(** *** The event controller's handlers that move [currentParticipants] *)

(** [joinEvent] ([controllers/event.controller.ts], lines 172-215). *)
Definition joinEvent (req_user : User) (id : ObjectId) : M Response :=
  try_catch
    (event <- Event_findById id ;;
     match event with
     | None => ret (errorResponse "Event not found" 404)
     | Some event =>
       if negb (EventStatus_eqb (e_status event) E_open)
       then ret (errorResponse "Event is not open for joining" 400)
       else if currentParticipants event >=? maxParticipants event
       then ret (errorResponse "Event is full" 400)
       else if includes (participants event) (u_id req_user)
       then ret (errorResponse "You are already a participant" 400)
       else
         Event_save event
           (fun e =>
              let e1 := if includes (waitingList e) (u_id req_user)
                        then set_waitingList (pull (waitingList e) (u_id req_user)) e
                        else e in
              set_currentParticipants (currentParticipants e1 + 1)
                (set_participants (push (participants e1) (u_id req_user)) e1)) ;;;
         User_save req_user
           (fun u => set_joinedEvents (push (joinedEvents u) (e_id event)) u) ;;;
         ret (successResponse "Successfully joined the event" None)
     end)
    (fun error => ret (errorResponse error 500)).

(** [leaveEvent] ([controllers/event.controller.ts], lines 217-250). *)
Definition leaveEvent (req_user : User) (id : ObjectId) : M Response :=
  try_catch
    (event <- Event_findById id ;;
     match event with
     | None => ret (errorResponse "Event not found" 404)
     | Some event =>
       if negb (includes (participants event) (u_id req_user))
       then ret (errorResponse "You are not a participant of this event" 400)
       else
         Event_save event
           (fun e =>
              let e1 := set_currentParticipants (currentParticipants e - 1)
                          (set_participants (pull (participants e) (u_id req_user)) e) in
              if EventStatus_eqb (e_status e1) E_full
              then set_e_status E_open e1 else e1) ;;;
         User_save req_user
           (fun u => set_joinedEvents (pull (joinedEvents u) id) u) ;;;
         ret (successResponse "Successfully left the event" None)
     end)
    (fun error => ret (errorResponse error 500)).

(** [EventService.cancelEvent] ([services/event.service.ts], lines
    332-358). *)
Definition cancelEvent (eventId' hostId' : ObjectId) : M unit :=
  event <- Event_findById eventId' ;;
  match event with
  | None => throw "Event not found"
  | Some event =>
    if negb (Nat.eqb (e_hostId event) hostId')
    then throw "You can only cancel your own events"
    else if EventStatus_eqb (e_status event) E_cancelled
    then throw "Event is already cancelled"
    else
      Event_save event (set_e_status E_cancelled) ;;;
      Booking_updateMany
        (fun b => Nat.eqb (eventId b) eventId'
                  && negb (BookingStatus_eqb (status b) B_cancelled))
        B_cancelled
  end.

(** *** Requests *)

(** The [authenticate] middleware ([middleware/auth.middleware.ts]): the
    request runs as the stored user the token names. *)
Definition authenticate (uid : ObjectId) (handler : User -> M Response) : M Response :=
  user <- User_findById uid ;;
  match user with
  | None => ret (errorResponse "User not found" 404)
  | Some user => handler user
  end.

(** What reaches the server: an authenticated HTTP request, a call of the
    payment service, or a webhook delivery. *)
Inductive Op :=
| OpCreateBooking (uid : ObjectId) (body : CreateBookingBody)
| OpCreatePaymentIntent (now : Z) (uid : ObjectId) (eventId' : option ObjectId)
    (quantity' : option Z)
| OpUpdateBooking (uid : ObjectId) (id : ObjectId)
    (status' specialRequests' notes' : option string)
| OpCancelBooking (uid : ObjectId) (id : ObjectId)
| OpConfirmBooking (uid : ObjectId) (id : ObjectId)
| OpJoinEvent (uid : ObjectId) (id : ObjectId)
| OpLeaveEvent (uid : ObjectId) (id : ObjectId)
| OpCancelEvent (eventId' hostId' : ObjectId)
| OpConfirmPayment (paymentIntentId' : string)
| OpProcessRefund (data : RefundData)
| OpWebhook (event : StripeEvent).

Inductive Outcome :=
| Responded (r : Response)
| Resolved
| Rejected (msg : string).

Definition respond (m : M Response) : Store -> Outcome * Store :=
  fun s =>
    match m s with
    | (Ok r, s') => (Responded r, s')
    | (Throw e, s') => (Rejected e, s')
    end.

Definition settle (m : M unit) : Store -> Outcome * Store :=
  fun s =>
    match m s with
    | (Ok _, s') => (Resolved, s')
    | (Throw e, s') => (Rejected e, s')
    end.

Definition step (op : Op) : Store -> Outcome * Store :=
  match op with
  | OpCreateBooking uid body =>
      respond (authenticate uid (fun u => createBooking u body))
  | OpCreatePaymentIntent now uid eventId' quantity' =>
      respond (authenticate uid (fun u => createPaymentIntent_handler now u eventId' quantity'))
  | OpUpdateBooking uid id st sr nt =>
      respond (authenticate uid (fun u => updateBooking u id st sr nt))
  | OpCancelBooking uid id => respond (authenticate uid (fun u => cancelBooking u id))
  | OpConfirmBooking uid id => respond (authenticate uid (fun u => confirmBooking u id))
  | OpJoinEvent uid id => respond (authenticate uid (fun u => joinEvent u id))
  | OpLeaveEvent uid id => respond (authenticate uid (fun u => leaveEvent u id))
  | OpCancelEvent eventId' hostId' => settle (cancelEvent eventId' hostId')
  | OpConfirmPayment paymentIntentId' => settle (confirmPayment paymentIntentId')
  | OpProcessRefund data => settle (processRefund data)
  | OpWebhook event => settle (handleWebhook event)
  end.

(** The store after a sequence of operations. *)
Fixpoint run (ops : list Op) (s : Store) : Store :=
  match ops with
  | [] => s
  | op :: ops' => run ops' (snd (step op s))
  end.

End Server.

(** ** Reading the store *)

Definition Booking_lookup (s : Store) (id : ObjectId) : option Booking :=
  find (fun b => Nat.eqb (b_id b) id) (bookings s).

Definition Event_lookup (s : Store) (id : ObjectId) : option Event :=
  find (fun e => Nat.eqb (e_id e) id) (events s).

Definition status_of (s : Store) (id : ObjectId) : option BookingStatus :=
  option_map status (Booking_lookup s id).

(** The bookings of event [eid] that count as participants in the
    specification's invariant: those confirmed or completed. *)
Definition counted (eid : ObjectId) (b : Booking) : bool :=
  Nat.eqb (eventId b) eid
  && (BookingStatus_eqb (status b) B_confirmed
      || BookingStatus_eqb (status b) B_completed).

Definition counted_bookings (s : Store) (eid : ObjectId) : Z :=
  Z.of_nat (List.length (filter (counted eid) (bookings s))).

(** [currentParticipants] agrees with the counted bookings, for every
    event of the store. *)
Definition participant_count_ok (s : Store) : bool :=
  forallb (fun e => currentParticipants e =? counted_bookings s (e_id e)) (events s).

(** The non-cancelled bookings of user [uid] for event [eid]. *)
Definition active_bookings (s : Store) (uid eid : ObjectId) : list Booking :=
  filter (fun b => Nat.eqb (userId b) uid && Nat.eqb (eventId b) eid
                   && negb (BookingStatus_eqb (status b) B_cancelled))
         (bookings s).

(** The unique index holds of a collection. *)
Fixpoint unique_user_event (l : list Booking) : bool :=
  match l with
  | [] => true
  | b :: l' => negb (existsb (same_user_event b) l') && unique_user_event l'
  end.

(** The lifecycle the specification allows: pending to confirmed,
    confirmed to cancelled, completed or disputed, and confirmed or
    completed to refunded. *)
Definition spec_transition (from to : BookingStatus) : bool :=
  match from, to with
  | B_pending, B_confirmed => true
  | B_confirmed, (B_cancelled | B_completed | B_disputed | B_refunded) => true
  | B_completed, B_refunded => true
  | _, _ => false
  end.

(** ** Concrete stores and gateways *)

Module Fixtures.

Definition host : User := mkUser 10 HOST [].
Definition alice : User := mkUser 20 USER [].
Definition bob : User := mkUser 21 USER [].

(** A gateway that knows one succeeded intent, [pi_1], of 1000 minor
    units for one seat of event 1 bought by alice, and accepts every
    refund. *)
Definition intent1 : PaymentIntent :=
  mkPaymentIntent "pi_1" "succeeded" 1000 "usd" "pi_1_secret"
    (mkMetadata (Some 1%nat) (Some 20%nat) None (Some 1)).

Definition gateway : Stripe :=
  mkStripe
    (fun cents cur md => Some (mkPaymentIntent "pi_2" "requires_payment_method" cents cur
                                 "pi_2_secret" md))
    (fun id => if option_string_eqb id (Some "pi_1") then Some intent1 else None)
    (fun _ _ => Some "re_1").

(** The same gateway, refusing every refund. *)
Definition gateway_no_refund : Stripe :=
  mkStripe (paymentIntents_create gateway) (paymentIntents_retrieve gateway)
    (fun _ _ => None).


(** A paid event of price 10 with [n] of [m] places taken, in status
    [st], with participants [ps]. *)
Definition paid_event (m n : Z) (st : EventStatus) (ps : list ObjectId) : Event :=
  mkEvent 1 10 1000 m n (10 # 1) st ps [].

Definition free_event : Event := mkEvent 1 10 1000 5 0 0 E_open [] [].

(** Alice's booking for event 1, paid through [pi_1]. *)
Definition alice_booking (st : BookingStatus) (q : Z) : Booking :=
  mkBooking 2 20 1 10 st P_paid (Some "pi_1") (10 # 1) q "usd"
    None None None None None.

Definition people : list User := [host; alice; bob].

(** A store with one event and the given bookings, on a server started
    at time 0; the events of these stores are dated 1000. *)
Definition store_of (e : Event) (bs : list Booking) : Store := mkStore [e] bs people 100 0.

(** No booking yet. *)
Definition store_open : Store := store_of (paid_event 5 0 E_open []) [].
Definition store_free : Store := store_of free_event [].

(** One booking of alice, who is the one participant. *)
Definition store_booked (st : BookingStatus) (q : Z) : Store :=
  store_of (paid_event 5 1 E_open [20%nat]) [alice_booking st q].

(** Alice's booking was cancelled; nobody takes part. *)
Definition store_cancelled : Store :=
  store_of (paid_event 5 0 E_open []) [alice_booking B_cancelled 1].

(** A full event of a single place, taken by alice. *)
Definition store_full : Store :=
  store_of (paid_event 1 1 E_full [20%nat]) [alice_booking B_confirmed 1].

(** An event of a single place, held by alice's pending booking; the
    count is 0. *)
Definition store_held : Store :=
  store_of (paid_event 1 0 E_open []) [alice_booking B_pending 1].

(** An event of two places, one taken by bob through [joinEvent]; no
    booking. *)
Definition store_joined : Store :=
  run gateway "usd" [OpJoinEvent 21 1] (store_of (paid_event 2 0 E_open []) []).

(** A request for two seats of event 1. *)
Definition two_seats : CreateBookingBody := mkCreateBookingBody 1 (Some 2) None None.

(** Refund requests for booking 2: in full, and of 5 dollars. *)
Definition refund_in_full : RefundData := mkRefundData 2 None None.
Definition refund_of_5 : RefundData :=
  mkRefundData 2 (Some "schedule conflict") (Some (5 # 1)).

End Fixtures.

(** ** What an operation does to the booking collection *)

(** The non-cancelled bookings of an event, as [createPaymentIntent]
    counts them. *)
Definition booked_count (s : Store) (eid : ObjectId) : Z :=
  Z.of_nat (List.length
              (filter (fun b => Nat.eqb (eventId b) eid
                                && negb (BookingStatus_eqb (status b) B_cancelled))
                      (bookings s))).

(** The operations that insert a booking. *)
Definition inserts (op : Op) : Prop :=
  match op with
  | OpCreateBooking _ _ | OpConfirmPayment _
  | OpWebhook (payment_intent_succeeded _) => True
  | _ => False
  end.

(** Every effect an operation can have on the collection: none, the
    insertion of a document whose (user, event) pair is new, or the write
    of one stored document (of several, for [cancelEvent]). *)
Inductive BookingsEffect (s : Store) : Op -> list Booking -> Prop :=
| Eff_unchanged op :
    BookingsEffect s op (bookings s)
| Eff_inserted op b :
    inserts op ->
    existsb (same_user_event b) (bookings s) = false ->
    BookingsEffect s op (bookings s ++ [b])
| Eff_cancelled uid booking user :
    Booking_lookup s (b_id booking) = Some booking ->
    find (fun u => Nat.eqb (u_id u) uid) (users s) = Some user ->
    is_owner_host_or_admin booking user = true ->
    BookingsEffect s (OpCancelBooking uid (b_id booking))
      (update_by_id b_id (b_id booking) (set_status B_cancelled) (bookings s))
| Eff_confirmed uid booking user :
    Booking_lookup s (b_id booking) = Some booking ->
    find (fun u => Nat.eqb (u_id u) uid) (users s) = Some user ->
    is_host_or_admin booking user = true ->
    status booking = B_pending ->
    paymentStatus booking = P_paid ->
    BookingsEffect s (OpConfirmBooking uid (b_id booking))
      (update_by_id b_id (b_id booking) (set_status B_confirmed) (bookings s))
| Eff_updated uid booking user st sr nt :
    Booking_lookup s (b_id booking) = Some booking ->
    find (fun u => Nat.eqb (u_id u) uid) (users s) = Some user ->
    is_owner_host_or_admin booking user = true ->
    (forall v, st = Some v -> v <> EmptyString -> is_host_or_admin booking user = true) ->
    update_validators st sr nt = true ->
    BookingsEffect s (OpUpdateBooking uid (b_id booking) st sr nt)
      (update_by_id b_id (b_id booking) (update_paths st sr nt) (bookings s))
| Eff_refunded data booking refund paymentIntent :
    Booking_lookup s (rd_bookingId data) = Some booking ->
    status booking <> B_cancelled ->
    paymentStatus booking = P_paid ->
    BookingsEffect s (OpProcessRefund data)
      (update_by_id b_id (b_id booking)
         (fun b => set_refund (Some refund)
                     (Some (refund_cents (rd_amount data) paymentIntent # 100))
                     (rd_reason data)
                     (set_paymentStatus P_refunded (set_status B_cancelled b)))
         (bookings s))
| Eff_disputed payment_intent booking :
    In booking (bookings s) ->
    BookingsEffect s (OpWebhook (charge_dispute_created payment_intent))
      (update_by_id b_id (b_id booking) (set_status B_disputed) (bookings s))
| Eff_event_cancelled eid hid :
    BookingsEffect s (OpCancelEvent eid hid)
      (map (fun b => if Nat.eqb (eventId b) eid
                        && negb (BookingStatus_eqb (status b) B_cancelled)
                     then set_status B_cancelled b else b)
           (bookings s)).

(** User [uid] is stored, booking [id] is stored, and [P] holds of them. *)
Definition acting (s : Store) (uid id : ObjectId) (P : User -> Booking -> Prop) : Prop :=
  exists user booking,
    find (fun u => Nat.eqb (u_id u) uid) (users s) = Some user
    /\ Booking_lookup s id = Some booking
    /\ P user booking.

(** The status changes the code performs, by operation: [from] and [to]
    are the status of booking [id] before and after [op] runs on [s]. *)
Definition code_transition (s : Store) (op : Op) (id : ObjectId)
    (from to : BookingStatus) : Prop :=
  match op with
  | OpConfirmBooking uid id' =>
      id' = id /\ from = B_pending /\ to = B_confirmed
      /\ acting s uid id (fun user booking =>
                            is_host_or_admin booking user = true
                            /\ paymentStatus booking = P_paid)
  | OpCancelBooking uid id' =>
      id' = id /\ to = B_cancelled
      /\ acting s uid id (fun user booking =>
                            is_owner_host_or_admin booking user = true)
  | OpCancelEvent _ _ => to = B_cancelled
  | OpProcessRefund data =>
      rd_bookingId data = id /\ to = B_cancelled
      /\ exists booking, Booking_lookup s id = Some booking
                         /\ paymentStatus booking = P_paid
  | OpWebhook (charge_dispute_created _) => to = B_disputed
  | OpUpdateBooking uid id' (Some v) _ _ =>
      id' = id /\ parse_BookingStatus v = Some to
      /\ acting s uid id (fun user booking => is_host_or_admin booking user = true)
  | _ => False
  end.

(** ** The claims of the specification, as stated *)



(** [createBooking] answers 'Event is full' exactly when the requested
    quantity no longer fits. *)
Definition createBooking_capacity_rule (req_user : User) (body : CreateBookingBody)
    (q : Z) (event : Event) (s : Store) : Prop :=
  fst (createBooking req_user body s) = Ok (errorResponse "Event is full" 400)
  <-> currentParticipants event + q > maxParticipants event.

(** [createPaymentIntent] throws 'Not enough spots available' exactly
    when the requested quantity no longer fits. *)
Definition createPaymentIntent_capacity_rule (stripe : Stripe) (cur : string) (now : Z)
    (uid : ObjectId) (q : Z) (event : Event) (s : Store) : Prop :=
  fst (createPaymentIntent stripe cur now (e_id event) uid q s)
    = Throw "Not enough spots available"
  <-> currentParticipants event + q > maxParticipants event.

(** Every status change an operation makes is one of the lifecycle. *)
Definition follows_spec_lifecycle (stripe : Stripe) (cur : string) (op : Op) (s : Store)
  : Prop :=
  forall id from to,
    status_of s id = Some from ->
    status_of (snd (step stripe cur op s)) id = Some to ->
    from <> to ->
    spec_transition from to = true.

(** Cancelling a cancelled booking is answered with an error. *)
Definition cancel_of_cancelled_rejected (stripe : Stripe) (cur : string)
    (uid id : ObjectId) (s : Store) : Prop :=
  status_of s id = Some B_cancelled ->
  exists r, fst (step stripe cur (OpCancelBooking uid id) s) = Responded r
            /\ is_error r = true.

(** The gateway turns the refund of [booking] down: it fails to return
    the payment intent, or it fails to create the refund. *)
Definition gateway_refuses (stripe : Stripe) (booking : Booking) (data : RefundData)
  : Prop :=
  match paymentIntents_retrieve stripe (paymentIntentId booking) with
  | None => True
  | Some paymentIntent =>
      refunds_create stripe (paymentIntentId booking)
        (refund_cents (rd_amount data) paymentIntent) = None
  end.

(** * Further operations of the same files *)

(** ** Reading collections *)

Definition Event_find (query : Event -> bool) : M (list Event) :=
  fun s => (Ok (filter query (events s)), s).

Definition Booking_find (query : Booking -> bool) : M (list Booking) :=
  fun s => (Ok (filter query (bookings s)), s).

(** [Event.findByIdAndDelete(id)]. *)
Definition Event_findByIdAndDelete (id : ObjectId) : M unit :=
  fun s => (Ok tt, with_events (filter (fun e => negb (Nat.eqb (e_id e) id))) s).

(** ** Earnings, payouts and payment validation ([PaymentService]) *)

(** The optional [filters] of [getHostEarnings]. *)
Record EarningsFilters := mkEarningsFilters {
  f_startDate : option Z;
  f_endDate : option Z;
  f_eventId : option ObjectId
}.

Record Earnings := mkEarnings {
  totalRevenue : Q;
  totalRefunds : Q;
  netEarnings : Q;
  totalBookings : Z;
  averageBookingValue : Q
}.

(** What [stripe.transfers.create] returns, and what [createPayout]
    returns from it. *)
Record Transfer := mkTransfer {
  transfer_id : string;
  transfer_reversed : bool;
  transfer_created : Z
}.

Record Payout := mkPayout {
  payout_transferId : string;
  payout_amount : Q;
  payout_currency : string;
  payout_reversed : bool;
  payout_created : Z
}.

(** [booking.refundAmount || 0]. *)
Definition refundAmount_or_0 (b : Booking) : Q :=
  match refundAmount b with
  | Some r => if truthy_number r then r else 0
  | None => 0
  end.

(** What [EventService.getEventById] returns: the event with
    [currentParticipants] replaced by the number of its non-cancelled
    bookings, and [availableSpots]. *)
Record EventView := mkEventView {
  view_event : Event;
  availableSpots : Z
}.

Section Accounts.

Variable stripe : Stripe.
Variable config_currency : string.

(** The [createdAt] timestamp Mongoose keeps with every booking
    ([timestamps: true]); the [Booking] record does not carry it. *)
Variable createdAt : Booking -> Z.

(** The [stripeAccountId] path of a user document, which the [User]
    record does not carry, and the gateway call [transfers.create] (amount
    in minor units, currency, destination; [None] is a call that throws). *)
Variable stripeAccountId : User -> string.
Variable transfers_create : Z -> string -> string -> option Transfer.

(** [Cloudinary]'s deletion of the images of an event, in
    [EventService.deleteEvent]: [true] when the event has no image or the
    images were deleted, [false] when [deleteMultipleImages] throws. *)
Variable deleteEventImages : Event -> bool.

(** The query [getHostEarnings] builds ([services/payment.service.ts],
    lines 266-280): paid, non-cancelled bookings of the host's events, within
    the date range when one is given; an [eventId] filter replaces the
    restriction to the host's events. *)
Definition earnings_query (eventIds : list ObjectId) (filters : option EarningsFilters)
    (b : Booking) : bool :=
  match match filters with Some f => f_eventId f | None => None end with
  | Some eid => Nat.eqb (eventId b) eid
  | None => includes eventIds (eventId b)
  end
  && PaymentStatus_eqb (paymentStatus b) P_paid
  && negb (BookingStatus_eqb (status b) B_cancelled)
  && match filters with
     | Some f =>
         match f_startDate f with Some d => d <=? createdAt b | None => true end
         && match f_endDate f with Some d => createdAt b <=? d | None => true end
     | None => true
     end.

(** [PaymentService.getHostEarnings] ([services/payment.service.ts], lines
    256-298). *)
Definition getHostEarnings (hostId' : ObjectId) (filters : option EarningsFilters)
  : M Earnings :=
  events' <- Event_find (fun e => Nat.eqb (e_hostId e) hostId') ;;
  let eventIds := map e_id events' in
  bookings' <- Booking_find (earnings_query eventIds filters) ;;
  let totalRevenue' := fold_left (fun sum b => sum + amount b)%Q bookings' 0%Q in
  let totalRefunds' := fold_left (fun sum b => sum + refundAmount_or_0 b)%Q bookings' 0%Q in
  let totalBookings' := Z.of_nat (List.length bookings') in
  ret (mkEarnings totalRevenue' totalRefunds' (totalRevenue' - totalRefunds')%Q
         totalBookings'
         (if 0 <? totalBookings' then (totalRevenue' / inject_Z totalBookings')%Q else 0%Q)).

(** [PaymentService.createPayout] ([services/payment.service.ts], lines
    300-343). *)
Definition createPayout (hostId' : ObjectId) (amount' : Q) : M Payout :=
  host' <- User_findById hostId' ;;
  match host' with
  | None => throw "Host not found"
  | Some host' =>
    if negb (UserRole_eqb (role host') HOST) then throw "Host not found"
    else
      earnings <- getHostEarnings hostId' None ;;
      if Qlt_bool (netEarnings earnings) amount'
      then throw "Insufficient available balance"
      else
        try_catch
          (if negb (truthy_string (stripeAccountId host'))
           then throw "Host has not connected a Stripe account for payouts"
           else
             match transfers_create (Math_round (amount' * 100)) config_currency
                     (stripeAccountId host') with
             | None => throw GatewayError
             | Some transfer =>
                 ret (mkPayout (transfer_id transfer) amount' config_currency
                        (transfer_reversed transfer) (transfer_created transfer))
             end)
          (fun _ => throw "Failed to create payout")
  end.

(** [PaymentService.validatePayment] ([services/payment.service.ts], lines
    433-442). *)
Definition validatePayment (paymentIntentId' : string) (expectedAmount : Q) : M bool :=
  try_catch
    (paymentIntent <- stripe_retrieve stripe (Some paymentIntentId') ;;
     ret (String.eqb (pi_status paymentIntent) "succeeded"
          && (pi_amount paymentIntent =? Math_round (expectedAmount * 100))))
    (fun _ => ret false).

(** ** [EventService] *)

(** [EventService.publishEvent] ([services/event.service.ts], lines
    312-331). *)
Definition publishEvent (eventId' hostId' : ObjectId) : M unit :=
  event <- Event_findById eventId' ;;
  match event with
  | None => throw "Event not found"
  | Some event =>
    if negb (Nat.eqb (e_hostId event) hostId')
    then throw "You can only publish your own events"
    else if negb (EventStatus_eqb (e_status event) E_draft)
    then throw "Only draft events can be published"
    else Event_save event (set_e_status E_open)
  end.

(** [EventService.deleteEvent] ([services/event.service.ts], lines
    173-202). *)
Definition deleteEvent (eventId' hostId' : ObjectId) : M unit :=
  event <- Event_findById eventId' ;;
  match event with
  | None => throw "Event not found"
  | Some event =>
    if negb (Nat.eqb (e_hostId event) hostId')
    then throw "You can only delete your own events"
    else
      bookingCount <-
        Booking_countDocuments
          (fun b => Nat.eqb (eventId b) eventId'
                    && negb (BookingStatus_eqb (status b) B_cancelled)) ;;
      if bookingCount >? 0
      then throw "Cannot delete event with active bookings"
      else if negb (deleteEventImages event)
      then throw "Failed to delete images from Cloudinary"
      else Event_findByIdAndDelete eventId'
  end.

(** [EventService.getEventById] ([services/event.service.ts], lines
    204-223). *)
Definition getEventById (eventId' : ObjectId) : M EventView :=
  event <- Event_findById eventId' ;;
  match event with
  | None => throw "Event not found"
  | Some event =>
      bookingCount <-
        Booking_countDocuments
          (fun b => Nat.eqb (eventId b) eventId'
                    && negb (BookingStatus_eqb (status b) B_cancelled)) ;;
      ret (mkEventView (set_currentParticipants bookingCount event)
             (maxParticipants event - bookingCount))
  end.

End Accounts.

(** ** Invariants of the stores *)

(** A refund amount is recorded only on a booking whose payment is
    refunded. *)
Definition refund_marks_refunded (b : Booking) : bool :=
  match refundAmount b with
  | Some _ => PaymentStatus_eqb (paymentStatus b) P_refunded
  | None => true
  end.

(** The status of an event says 'full' exactly when the participant
    count has reached the maximum. *)
Definition status_follows_count (e : Event) : bool :=
  if currentParticipants e >=? maxParticipants e
  then EventStatus_eqb (e_status e) E_full
  else negb (EventStatus_eqb (e_status e) E_full).

(** The operation that moves the participant count without saving the
    event document: [processRefund], through [$inc]. *)
Definition bypasses_save (op : Op) : bool :=
  match op with
  | OpProcessRefund _ => true
  | _ => false
  end.

(** What a booking was made for: the paths no handler assigns after the
    document is built. *)
Definition booking_terms (b : Booking)
  : ObjectId * ObjectId * ObjectId * ObjectId * Q * Z :=
  (b_id b, userId b, eventId b, hostId b, amount b, quantity b).

(** What an event offers. *)
Definition event_terms (e : Event) : ObjectId * ObjectId * Z * Z * Q :=
  (e_id e, e_hostId e, date e, maxParticipants e, price e).

(** Who a user is to the access checks. *)
Definition user_rights (u : User) : ObjectId * UserRole := (u_id u, role u).

(** The user an HTTP request is made as; the payment-service calls and
    the webhook pass through no [authenticate]. *)
Definition requester (op : Op) : option ObjectId :=
  match op with
  | OpCreateBooking uid _ | OpCreatePaymentIntent _ uid _ _
  | OpUpdateBooking uid _ _ _ _ | OpCancelBooking uid _ | OpConfirmBooking uid _
  | OpJoinEvent uid _ | OpLeaveEvent uid _ => Some uid
  | _ => None
  end.

(** ** More concrete stores *)

Module Accounts_Fixtures.

Import Fixtures.

(** Creation times: every booking was made at time 50. *)
Definition made_at_50 (b : Booking) : Z := 50.

(** The host has connected the account [acct_10]; nobody else has one. *)
Definition accounts (u : User) : string :=
  if Nat.eqb (u_id u) 10 then "acct_10" else EmptyString.

Definition transfers (cents : Z) (cur dest : string) : option Transfer :=
  Some (mkTransfer "tr_1" false 60).

(** A draft event of the host. *)
Definition store_draft : Store := store_of (paid_event 5 0 E_draft []) [].

(** A sold-out event of two places with two confirmed bookings. *)
Definition bob_booking : Booking :=
  mkBooking 3 21 1 10 B_confirmed P_paid (Some "pi_3") (10 # 1) 1 "usd"
    None None None None None.

Definition store_sold_out : Store :=
  store_of (paid_event 2 2 E_full [20%nat; 21%nat])
    [alice_booking B_confirmed 1; bob_booking].

(** A pending, paid booking waiting for the host. *)
Definition store_pending : Store :=
  store_of (paid_event 5 0 E_open []) [alice_booking B_pending 1].

End Accounts_Fixtures.

(** * Proofs *)

(** ** Symbolic execution of the monad *)

(** [wp m Q s]: the postcondition [Q] holds of the result and the store
    that running [m] on [s] leaves.  One rule per monad operation and per
    model operation lets a proof walk through a handler statement by
    statement. *)
Definition wp {A} (m : M A) (Q : Result A -> Store -> Prop) (s : Store) : Prop :=
  Q (fst (m s)) (snd (m s)).

Lemma wp_ret A (a : A) Q s : Q (Ok a) s -> wp (ret a) Q s.
Proof. exact (fun H => H). Qed.

Lemma wp_throw A e (Q : Result A -> Store -> Prop) s : Q (Throw e) s -> wp (throw e) Q s.
Proof. exact (fun H => H). Qed.

Lemma wp_bind A B (m : M A) (k : A -> M B) Q s :
  wp m (fun r s' => match r with
                    | Ok a => wp (k a) Q s'
                    | Throw e => Q (Throw e) s'
                    end) s ->
  wp (bind m k) Q s.
Proof.
  unfold wp, bind. destruct (m s) as [[a|e] s']; simpl; auto.
Qed.

Lemma wp_try_catch A (m : M A) h Q s :
  wp m (fun r s' => match r with
                    | Ok a => Q (Ok a) s'
                    | Throw e => wp (h e) Q s'
                    end) s ->
  wp (try_catch m h) Q s.
Proof.
  unfold wp, try_catch. destruct (m s) as [[a|e] s']; simpl; auto.
Qed.

Lemma wp_Event_findById id Q s :
  Q (Ok (Event_lookup s id)) s -> wp (Event_findById id) Q s.
Proof. exact (fun H => H). Qed.

Lemma wp_Booking_findById id Q s :
  Q (Ok (Booking_lookup s id)) s -> wp (Booking_findById id) Q s.
Proof. exact (fun H => H). Qed.

Lemma wp_Booking_findOne query Q s :
  Q (Ok (find query (bookings s))) s -> wp (Booking_findOne query) Q s.
Proof. exact (fun H => H). Qed.

Lemma wp_Booking_countDocuments query Q s :
  Q (Ok (Z.of_nat (List.length (filter query (bookings s))))) s ->
  wp (Booking_countDocuments query) Q s.
Proof. exact (fun H => H). Qed.

Lemma wp_User_findById id Q s :
  Q (Ok (find (fun u => Nat.eqb (u_id u) id) (users s))) s -> wp (User_findById id) Q s.
Proof. exact (fun H => H). Qed.

Lemma wp_Event_save event paths Q s :
  (eventSchema_validate (loadedAt s) (paths event) = true ->
   Q (Ok tt) (with_events (update_by_id e_id (e_id event)
                             (fun e => eventSchema_pre_save (paths e))) s)) ->
  (eventSchema_validate (loadedAt s) (paths event) = false ->
   Q (Throw ValidationError_Event) s) ->
  wp (Event_save event paths) Q s.
Proof.
  unfold wp, Event_save.
  destruct (eventSchema_validate (loadedAt s) (paths event)); simpl; auto.
Qed.

Lemma wp_Event_findByIdAndUpdate_inc id n Q s :
  Q (Ok tt) (with_events (update_by_id e_id id
               (fun e => set_currentParticipants (currentParticipants e + n) e)) s) ->
  wp (Event_findByIdAndUpdate_inc id n) Q s.
Proof. exact (fun H => H). Qed.

Lemma wp_User_save user paths Q s :
  Q (Ok tt) (with_users (update_by_id u_id (u_id user) paths) s) ->
  wp (User_save user paths) Q s.
Proof. exact (fun H => H). Qed.

Lemma wp_Booking_save booking paths Q s :
  (bookingSchema_validate (paths booking) = true ->
   Q (Ok tt) (with_bookings (update_by_id b_id (b_id booking) paths) s)) ->
  (bookingSchema_validate (paths booking) = false -> Q (Throw ValidationError_Booking) s) ->
  wp (Booking_save booking paths) Q s.
Proof.
  unfold wp, Booking_save. destruct (bookingSchema_validate (paths booking)); simpl; auto.
Qed.

Lemma wp_Booking_create input Q s :
  (forall e, Q (Throw e) s) ->
  (forall b, existsb (same_user_event b) (bookings s) = false ->
             Q (Ok b) (mkStore (events s) (bookings s ++ [b]) (users s) (S (nextId s))
                         (loadedAt s))) ->
  wp (Booking_create input) Q s.
Proof.
  intros Ht Hok. unfold wp, Booking_create.
  destruct (new_Booking (nextId s) input) as [b|]; simpl; auto.
  destruct (bookingSchema_validate b); simpl; auto.
  destruct (existsb (same_user_event b) (bookings s)) eqn:E; simpl; auto.
Qed.

Lemma wp_Booking_findByIdAndUpdate id st sr nt Q s :
  (update_validators st sr nt = true ->
   Q (Ok tt) (with_bookings (update_by_id b_id id (update_paths st sr nt)) s)) ->
  (update_validators st sr nt = false -> Q (Throw ValidationError_update) s) ->
  wp (Booking_findByIdAndUpdate id st sr nt) Q s.
Proof.
  unfold wp, Booking_findByIdAndUpdate. destruct (update_validators st sr nt); simpl; auto.
Qed.

Lemma wp_Booking_updateMany (query : Booking -> bool) v Q s :
  Q (Ok tt) (with_bookings (map (fun b => if query b then set_status v b else b)) s) ->
  wp (Booking_updateMany query v) Q s.
Proof. exact (fun H => H). Qed.

Lemma wp_stripe_retrieve stripe id Q s :
  (forall paymentIntent, paymentIntents_retrieve stripe id = Some paymentIntent ->
                         Q (Ok paymentIntent) s) ->
  (paymentIntents_retrieve stripe id = None -> Q (Throw GatewayError) s) ->
  wp (stripe_retrieve stripe id) Q s.
Proof.
  unfold wp, stripe_retrieve. destruct (paymentIntents_retrieve stripe id); simpl; auto.
Qed.

Lemma wp_stripe_refund stripe id cents Q s :
  (forall refund, refunds_create stripe id cents = Some refund -> Q (Ok refund) s) ->
  (refunds_create stripe id cents = None -> Q (Throw GatewayError) s) ->
  wp (stripe_refund stripe id cents) Q s.
Proof.
  unfold wp, stripe_refund. destruct (refunds_create stripe id cents); simpl; auto.
Qed.

Ltac wp_prim :=
  lazymatch goal with
  | |- wp (bind _ _) _ _ => apply wp_bind
  | |- wp (try_catch _ _) _ _ => apply wp_try_catch
  | |- wp (ret _) _ _ => apply wp_ret
  | |- wp (throw _) _ _ => apply wp_throw
  | |- wp (Event_findById _) _ _ => apply wp_Event_findById
  | |- wp (Booking_findById _) _ _ => apply wp_Booking_findById
  | |- wp (Booking_findOne _) _ _ => apply wp_Booking_findOne
  | |- wp (Booking_countDocuments _) _ _ => apply wp_Booking_countDocuments
  | |- wp (User_findById _) _ _ => apply wp_User_findById
  | |- wp (Event_findByIdAndUpdate_inc _ _) _ _ => apply wp_Event_findByIdAndUpdate_inc
  | |- wp (User_save _ _) _ _ => apply wp_User_save
  | |- wp (Booking_updateMany _ _) _ _ => apply wp_Booking_updateMany
  | |- wp (Event_save _ _) _ _ => apply wp_Event_save; intros ?
  | |- wp (Booking_save _ _) _ _ => apply wp_Booking_save; intros ?
  | |- wp (Booking_findByIdAndUpdate _ _ _ _) _ _ =>
      apply wp_Booking_findByIdAndUpdate; intros ?
  | |- wp (Booking_create _) _ _ => apply wp_Booking_create; [intros ? | intros ? ?]
  | |- wp (stripe_retrieve _ _) _ _ => apply wp_stripe_retrieve; [intros ? ? | intros ?]
  | |- wp (stripe_refund _ _ _) _ _ => apply wp_stripe_refund; [intros ? ? | intros ?]
  end.

Ltac wp_case :=
  match goal with
  | |- wp (match ?x with _ => _ end) _ _ => destruct x eqn:?
  | |- wp (if ?c then _ else _) _ _ => destruct c eqn:?
  end.

Ltac wp_run := repeat (first [wp_prim | wp_case | progress cbn beta iota]).

Lemma Booking_lookup_id s id b : Booking_lookup s id = Some b -> b_id b = id.
Proof.
  unfold Booking_lookup. intros H. apply find_some in H. destruct H as [_ H].
  now apply Nat.eqb_eq.
Qed.

Lemma BookingStatus_eqb_eq a b : BookingStatus_eqb a b = true <-> a = b.
Proof. destruct a, b; simpl; split; intros H; try reflexivity; discriminate H. Qed.

Lemma PaymentStatus_eqb_eq a b : PaymentStatus_eqb a b = true <-> a = b.
Proof. destruct a, b; simpl; split; intros H; try reflexivity; discriminate H. Qed.

Lemma EventStatus_eqb_eq a b : EventStatus_eqb a b = true <-> a = b.
Proof. destruct a, b; simpl; split; intros H; try reflexivity; discriminate H. Qed.

Lemma BookingStatus_eqb_neq a b : BookingStatus_eqb a b = false <-> a <> b.
Proof.
  split.
  - intros H E. apply BookingStatus_eqb_eq in E. congruence.
  - intros H. destruct (BookingStatus_eqb a b) eqn:E; [|reflexivity].
    apply BookingStatus_eqb_eq in E. contradiction.
Qed.

Lemma EventStatus_eqb_neq a b : EventStatus_eqb a b = false <-> a <> b.
Proof.
  split.
  - intros H E. apply EventStatus_eqb_eq in E. congruence.
  - intros H. destruct (EventStatus_eqb a b) eqn:E; [|reflexivity].
    apply EventStatus_eqb_eq in E. contradiction.
Qed.

Lemma snd_respond m s : snd (respond m s) = snd (m s).
Proof. unfold respond. now destruct (m s) as [[r|e] s']. Qed.

Lemma snd_settle m s : snd (settle m s) = snd (m s).
Proof. unfold settle. now destruct (m s) as [[r|e] s']. Qed.

(** Booleans left by the guards of the handlers, as propositions. *)
Ltac guards :=
  repeat match goal with
         | H : negb _ = true |- _ => apply negb_true_iff in H
         | H : negb _ = false |- _ => apply negb_false_iff in H
         | H : _ && _ = true |- _ => apply andb_prop in H; destruct H
         | H : BookingStatus_eqb _ _ = true |- _ => apply BookingStatus_eqb_eq in H
         | H : BookingStatus_eqb _ _ = false |- _ => apply BookingStatus_eqb_neq in H
         | H : PaymentStatus_eqb _ _ = true |- _ => apply PaymentStatus_eqb_eq in H
         | H : EventStatus_eqb _ _ = true |- _ => apply EventStatus_eqb_eq in H
         | H : EventStatus_eqb _ _ = false |- _ => apply EventStatus_eqb_neq in H
         end.

(** The id a lookup was made with is the id of the document found. *)
Ltac lookup_ids :=
  repeat match goal with
         | H : Booking_lookup _ ?id = Some ?b |- _ =>
             lazymatch id with
             | b_id b => fail
             | _ => let E := fresh in
                    pose proof (Booking_lookup_id _ _ H) as E;
                    try (is_var id; subst id); try rewrite <- E in *
             end
         end.

(** ** The effect of each operation on the bookings *)

Section Effects.

Variable stripe : Stripe.
Variable cur : string.

Lemma cancelBooking_effect uid u id s :
  find (fun x => Nat.eqb (u_id x) uid) (users s) = Some u ->
  wp (cancelBooking u id)
     (fun _ s' => BookingsEffect s (OpCancelBooking uid id) (bookings s')) s.
Proof.
  intros Hu. unfold cancelBooking. wp_run; simpl; try apply Eff_unchanged;
    lookup_ids; guards; now eapply Eff_cancelled; eauto.
Qed.

Lemma confirmBooking_effect uid u id s :
  find (fun x => Nat.eqb (u_id x) uid) (users s) = Some u ->
  wp (confirmBooking u id)
     (fun _ s' => BookingsEffect s (OpConfirmBooking uid id) (bookings s')) s.
Proof.
  intros Hu. unfold confirmBooking. wp_run; simpl; try apply Eff_unchanged;
    lookup_ids; guards; now eapply Eff_confirmed; eauto.
Qed.

Lemma createBooking_effect uid u body s :
  wp (createBooking u body)
     (fun _ s' => BookingsEffect s (OpCreateBooking uid body) (bookings s')) s.
Proof.
  unfold createBooking. wp_run; simpl; try apply Eff_unchanged;
    now apply Eff_inserted.
Qed.

Lemma createPaymentIntent_effect now uid u eid q s :
  wp (createPaymentIntent_handler stripe cur now u eid q)
     (fun _ s' => BookingsEffect s (OpCreatePaymentIntent now uid eid q) (bookings s')) s.
Proof.
  unfold createPaymentIntent_handler, createPaymentIntent.
  wp_run; simpl; apply Eff_unchanged.
Qed.

Lemma joinEvent_effect uid u id s :
  wp (joinEvent u id) (fun _ s' => BookingsEffect s (OpJoinEvent uid id) (bookings s')) s.
Proof. unfold joinEvent. wp_run; simpl; apply Eff_unchanged. Qed.

Lemma leaveEvent_effect uid u id s :
  wp (leaveEvent u id) (fun _ s' => BookingsEffect s (OpLeaveEvent uid id) (bookings s')) s.
Proof. unfold leaveEvent. wp_run; simpl; apply Eff_unchanged. Qed.

Lemma cancelEvent_effect eid hid s :
  wp (cancelEvent eid hid)
     (fun _ s' => BookingsEffect s (OpCancelEvent eid hid) (bookings s')) s.
Proof.
  unfold cancelEvent. wp_run; simpl; try apply Eff_unchanged; apply Eff_event_cancelled.
Qed.

Lemma confirmPayment_effect pid s :
  wp (confirmPayment stripe pid)
     (fun _ s' => BookingsEffect s (OpConfirmPayment pid) (bookings s')) s.
Proof.
  unfold confirmPayment. wp_run; simpl; try apply Eff_unchanged;
    now apply Eff_inserted.
Qed.

Lemma processRefund_effect data s :
  wp (processRefund stripe data)
     (fun _ s' => BookingsEffect s (OpProcessRefund data) (bookings s')) s.
Proof.
  unfold processRefund. wp_run; simpl; try apply Eff_unchanged;
    guards; now eapply Eff_refunded; eauto.
Qed.

Lemma handleWebhook_effect event s :
  wp (handleWebhook event)
     (fun _ s' => BookingsEffect s (OpWebhook event) (bookings s')) s.
Proof.
  unfold handleWebhook, handlePaymentSucceeded, handlePaymentFailed, handleDisputeCreated.
  destruct event; wp_run; simpl; try apply Eff_unchanged.
  - now apply Eff_inserted.
  - apply Eff_disputed.
    match goal with H : find _ _ = Some _ |- _ => now apply find_some in H end.
Qed.

Lemma truthy_string_neq v : truthy_string v = false -> v = EmptyString.
Proof.
  unfold truthy_string. intros H. apply negb_false_iff in H. now apply String.eqb_eq.
Qed.

Lemma updateBooking_effect uid u id st sr nt s :
  find (fun x => Nat.eqb (u_id x) uid) (users s) = Some u ->
  wp (updateBooking u id st sr nt)
     (fun _ s' => BookingsEffect s (OpUpdateBooking uid id st sr nt) (bookings s')) s.
Proof.
  intros Hu. unfold updateBooking. wp_run; simpl; try apply Eff_unchanged.
  lookup_ids. guards. eapply Eff_updated; eauto.
  intros v -> Hv.
  match goal with
  | H : _ && _ = false |- _ => apply andb_false_iff in H; destruct H as [Ht|Ht]
  end.
  - apply truthy_string_neq in Ht. contradiction.
  - now apply negb_false_iff in Ht.
Qed.

(** Every operation acts on the bookings in one of the listed ways. *)
Lemma step_effect op s :
  BookingsEffect s op (bookings (snd (step stripe cur op s))).
Proof.
  destruct op; simpl; rewrite ?snd_respond, ?snd_settle.
  - change (wp (authenticate uid (fun u => createBooking u body))
              (fun _ s' => BookingsEffect s (OpCreateBooking uid body) (bookings s')) s).
    unfold authenticate. wp_run; try apply Eff_unchanged. apply createBooking_effect.
  - change (wp (authenticate uid
                  (fun u => createPaymentIntent_handler stripe cur now u eventId' quantity'))
              (fun _ s' => BookingsEffect s (OpCreatePaymentIntent now uid eventId' quantity')
                             (bookings s')) s).
    unfold authenticate. wp_run; try apply Eff_unchanged. apply createPaymentIntent_effect.
  - change (wp (authenticate uid
                  (fun u => updateBooking u id status' specialRequests' notes'))
              (fun _ s' => BookingsEffect s
                             (OpUpdateBooking uid id status' specialRequests' notes')
                             (bookings s')) s).
    unfold authenticate. wp_run; try apply Eff_unchanged. now apply updateBooking_effect.
  - change (wp (authenticate uid (fun u => cancelBooking u id))
              (fun _ s' => BookingsEffect s (OpCancelBooking uid id) (bookings s')) s).
    unfold authenticate. wp_run; try apply Eff_unchanged. now apply cancelBooking_effect.
  - change (wp (authenticate uid (fun u => confirmBooking u id))
              (fun _ s' => BookingsEffect s (OpConfirmBooking uid id) (bookings s')) s).
    unfold authenticate. wp_run; try apply Eff_unchanged. now apply confirmBooking_effect.
  - change (wp (authenticate uid (fun u => joinEvent u id))
              (fun _ s' => BookingsEffect s (OpJoinEvent uid id) (bookings s')) s).
    unfold authenticate. wp_run; try apply Eff_unchanged. apply joinEvent_effect.
  - change (wp (authenticate uid (fun u => leaveEvent u id))
              (fun _ s' => BookingsEffect s (OpLeaveEvent uid id) (bookings s')) s).
    unfold authenticate. wp_run; try apply Eff_unchanged. apply leaveEvent_effect.
  - apply cancelEvent_effect.
  - apply confirmPayment_effect.
  - apply processRefund_effect.
  - apply handleWebhook_effect.
Qed.

End Effects.

(** ** The unique index *)

Lemma same_user_event_sym a b : same_user_event a b = same_user_event b a.
Proof.
  unfold same_user_event.
  now rewrite (Nat.eqb_sym (userId a)), (Nat.eqb_sym (eventId a)).
Qed.

Lemma unique_user_event_app l b :
  unique_user_event l = true ->
  existsb (same_user_event b) l = false ->
  unique_user_event (l ++ [b]) = true.
Proof.
  induction l as [|a l IH]; simpl; intros Hu Hb.
  - reflexivity.
  - apply andb_prop in Hu. destruct Hu as [Ha Hl].
    apply orb_false_iff in Hb. destruct Hb as [Hba Hbl].
    rewrite existsb_app. simpl.
    rewrite same_user_event_sym, Hba, orb_false_r.
    apply negb_true_iff in Ha. rewrite Ha. simpl. now apply IH.
Qed.

Lemma existsb_same_map (f : Booking -> Booking) a l :
  (forall b, userId (f b) = userId b /\ eventId (f b) = eventId b) ->
  existsb (same_user_event (f a)) (map f l) = existsb (same_user_event a) l.
Proof.
  intros Hf. induction l as [|x l IH]; simpl.
  - reflexivity.
  - rewrite IH. f_equal. unfold same_user_event.
    destruct (Hf a) as [-> ->]. now destruct (Hf x) as [-> ->].
Qed.

Lemma unique_user_event_map (f : Booking -> Booking) l :
  (forall b, userId (f b) = userId b /\ eventId (f b) = eventId b) ->
  unique_user_event (map f l) = unique_user_event l.
Proof.
  intros Hf. induction l as [|a l IH]; simpl.
  - reflexivity.
  - now rewrite IH, existsb_same_map.
Qed.

Lemma unique_user_event_update id (f : Booking -> Booking) l :
  (forall b, userId (f b) = userId b /\ eventId (f b) = eventId b) ->
  unique_user_event (update_by_id b_id id f l) = unique_user_event l.
Proof.
  intros Hf. unfold update_by_id. apply unique_user_event_map.
  intros b. destruct (Nat.eqb (b_id b) id); auto.
Qed.

Lemma update_paths_key st sr nt b :
  userId (update_paths st sr nt b) = userId b
  /\ eventId (update_paths st sr nt b) = eventId b.
Proof.
  unfold update_paths.
  destruct st as [v|]; [destruct (parse_BookingStatus v)|];
    destruct sr, nt; simpl; auto.
Qed.

(** No effect of an operation breaks the unique index. *)
Lemma effect_keeps_index s op l' :
  BookingsEffect s op l' ->
  unique_user_event (bookings s) = true ->
  unique_user_event l' = true.
Proof.
  intros He Hu. destruct He.
  - assumption.
  - now apply unique_user_event_app.
  - rewrite unique_user_event_update; auto.
  - rewrite unique_user_event_update; auto.
  - rewrite unique_user_event_update; auto using update_paths_key.
  - rewrite unique_user_event_update; auto.
  - rewrite unique_user_event_update; auto.
  - rewrite unique_user_event_map; auto.
    intros b. destruct (_ && _); auto.
Qed.

Lemma run_keeps_index stripe cur ops s :
  unique_user_event (bookings s) = true ->
  unique_user_event (bookings (run stripe cur ops s)) = true.
Proof.
  revert s. induction ops as [|op ops IH]; simpl; intros s Hu.
  - assumption.
  - apply IH. eapply effect_keeps_index; [apply step_effect | assumption].
Qed.

Lemma unique_no_other_active a l uid eid :
  existsb (same_user_event a) l = false ->
  userId a = uid -> eventId a = eid ->
  filter (fun b => Nat.eqb (userId b) uid && Nat.eqb (eventId b) eid
                   && negb (BookingStatus_eqb (status b) B_cancelled)) l = [].
Proof.
  intros He <- <-. induction l as [|x l IH]; simpl in *.
  - reflexivity.
  - apply orb_false_iff in He. destruct He as [Hx Hl].
    unfold same_user_event in Hx.
    rewrite (Nat.eqb_sym (userId x)), (Nat.eqb_sym (eventId x)), Hx. simpl.
    now apply IH.
Qed.

Lemma unique_at_most_one_active l uid eid :
  unique_user_event l = true ->
  (List.length
     (filter (fun b => Nat.eqb (userId b) uid && Nat.eqb (eventId b) eid
                       && negb (BookingStatus_eqb (status b) B_cancelled)) l) <= 1)%nat.
Proof.
  induction l as [|a l IH]; simpl; intros Hu.
  - lia.
  - apply andb_prop in Hu. destruct Hu as [Ha Hl]. apply negb_true_iff in Ha.
    destruct (Nat.eqb (userId a) uid) eqn:E1; simpl; auto.
    destruct (Nat.eqb (eventId a) eid) eqn:E2; simpl; auto.
    apply Nat.eqb_eq in E1, E2.
    rewrite (unique_no_other_active a l Ha E1 E2).
    destruct (negb _); simpl; lia.
Qed.

(** C2.  In every store reached from one that satisfies the unique index
    [{ userId, eventId }] of the booking collection, whatever operations ran
    (requests, payment-service calls, webhook deliveries), a user has at
    most one non-cancelled booking for an event: the database refuses the
    insertion of a second document for the pair, and no write changes the
    pair of a stored document. *)
Theorem at_most_one_active_booking :
  forall (stripe : Stripe) (cur : string) (ops : list Op) (s : Store)
         (uid eid : ObjectId),
    unique_user_event (bookings s) = true ->
    (List.length (active_bookings (run stripe cur ops s) uid eid) <= 1)%nat.
Proof.
  intros stripe cur ops s uid eid Hu.
  unfold active_bookings. apply unique_at_most_one_active.
  now apply run_keeps_index.
Qed.

(** ** Status transitions *)

Lemma find_map_preserving {A : Type} (p : A -> bool) (g : A -> A) l :
  (forall x, p (g x) = p x) ->
  find p (map g l) = option_map g (find p l).
Proof.
  intros Hg. induction l as [|a l IH]; simpl.
  - reflexivity.
  - rewrite Hg. destruct (p a); simpl; auto.
Qed.

Lemma find_app_Some {A : Type} (p : A -> bool) l l' x :
  find p l = Some x -> find p (l ++ l') = Some x.
Proof.
  induction l as [|a l IH]; simpl; intros H.
  - discriminate.
  - destruct (p a); auto.
Qed.

Lemma find_update_by_id id' id (f : Booking -> Booking) l :
  (forall b, b_id (f b) = b_id b) ->
  find (fun b => Nat.eqb (b_id b) id') (update_by_id b_id id f l)
  = option_map (fun b => if Nat.eqb (b_id b) id then f b else b)
      (find (fun b => Nat.eqb (b_id b) id') l).
Proof.
  intros Hf. unfold update_by_id. apply find_map_preserving.
  intros x. destruct (Nat.eqb (b_id x) id); [now rewrite Hf | reflexivity].
Qed.

Lemma update_paths_id st sr nt b : b_id (update_paths st sr nt b) = b_id b.
Proof.
  unfold update_paths.
  destruct st as [v|]; [destruct (parse_BookingStatus v)|];
    destruct sr, nt; reflexivity.
Qed.

Lemma update_paths_status st sr nt b :
  status (update_paths st sr nt b)
  = match st with
    | Some v => match parse_BookingStatus v with
                | Some v' => v'
                | None => status b
                end
    | None => status b
    end.
Proof.
  unfold update_paths.
  destruct st as [v|]; [destruct (parse_BookingStatus v)|];
    destruct sr, nt; reflexivity.
Qed.

(** What the written document [b] became, when its status changed. *)
Ltac written_document :=
  match goal with
  | Hl : Booking_lookup ?s ?id = Some ?b,
    H : option_map status (option_map _ (Some ?b)) = Some _ |- _ =>
      simpl in H;
      let E := fresh "E" in
      destruct (Nat.eqb (b_id b) _) eqn:E in H;
      [ apply Nat.eqb_eq in E; pose proof (Booking_lookup_id _ _ Hl)
      | congruence ]
  end.

(** A status that changed, changed as the effect of the operation says. *)
Lemma effect_transition s op l' id from to :
  BookingsEffect s op l' ->
  status_of s id = Some from ->
  option_map status (find (fun b => Nat.eqb (b_id b) id) l') = Some to ->
  from <> to ->
  code_transition s op id from to.
Proof.
  unfold status_of. intros He Hfrom Hto Hne.
  destruct (Booking_lookup s id) as [b|] eqn:Hl; [|discriminate].
  simpl in Hfrom. injection Hfrom as Hfrom.
  destruct He.
  - unfold Booking_lookup in Hl. rewrite Hl in Hto. simpl in Hto. congruence.
  - unfold Booking_lookup in Hl. rewrite (find_app_Some _ _ _ Hl) in Hto.
    simpl in Hto. congruence.
  - rewrite find_update_by_id in Hto by reflexivity.
    fold (Booking_lookup s id) in Hto. rewrite Hl in Hto. written_document.
    assert (b = booking) by congruence. subst b.
    simpl in *. repeat split; try congruence.
    exists user, booking. repeat split; congruence.
  - rewrite find_update_by_id in Hto by reflexivity.
    fold (Booking_lookup s id) in Hto. rewrite Hl in Hto. written_document.
    assert (b = booking) by congruence. subst b.
    simpl in *. repeat split; try congruence.
    exists user, booking. repeat split; congruence.
  - rewrite find_update_by_id in Hto by (intros; apply update_paths_id).
    fold (Booking_lookup s id) in Hto. rewrite Hl in Hto. written_document.
    rewrite update_paths_status in Hto.
    assert (b = booking) by congruence. subst b.
    destruct st as [v|]; [|simpl; congruence].
    destruct (parse_BookingStatus v) as [v'|] eqn:Hp; [|simpl; congruence].
    simpl. repeat split; try congruence.
    exists user, booking. repeat split; try congruence.
    match goal with Hh : forall v, _ -> _ -> _ |- _ => apply (Hh v eq_refl) end.
    intros ->. discriminate Hp.
  - rewrite find_update_by_id in Hto by reflexivity.
    fold (Booking_lookup s id) in Hto. rewrite Hl in Hto. written_document.
    match goal with Hb : Booking_lookup _ (rd_bookingId _) = Some _ |- _ =>
      pose proof (Booking_lookup_id _ _ Hb) end.
    assert (rd_bookingId data = id) by congruence.
    assert (b = booking) by congruence. subst b.
    simpl in *. repeat split; try congruence.
    exists booking. split; congruence.
  - rewrite find_update_by_id in Hto by reflexivity.
    fold (Booking_lookup s id) in Hto. rewrite Hl in Hto. written_document.
    simpl in *. congruence.
  - rewrite find_map_preserving in Hto
      by (intros x; destruct (_ && _); reflexivity).
    fold (Booking_lookup s id) in Hto. rewrite Hl in Hto. simpl in Hto.
    destruct (_ && _) in Hto; simpl in *; congruence.
Qed.

(** C6, as the code has it.  When an operation changes the status of a
    booking, the change is one of: [confirmBooking] pending to confirmed;
    [cancelBooking] or [cancelEvent] to cancelled; [processRefund] to
    cancelled; the dispute webhook to disputed; [updateBooking], called by
    the booking's host or an admin, to the status it names.  No other
    operation changes the status of a stored booking. *)
Theorem status_changes_by_operation :
  forall (stripe : Stripe) (cur : string) (op : Op) (s : Store)
         (id : ObjectId) (from to : BookingStatus),
    status_of s id = Some from ->
    status_of (snd (step stripe cur op s)) id = Some to ->
    from <> to ->
    code_transition s op id from to.
Proof.
  intros stripe cur op s id from to Hfrom Hto Hne.
  eapply effect_transition; eauto using step_effect.
Qed.

(** ** Running a computation to its result *)

Lemma wp_result A (m : M A) r0 s0 s :
  wp m (fun r s' => r = r0 /\ s' = s0) s -> m s = (r0, s0).
Proof.
  unfold wp. destruct (m s) as [r s']; simpl. now intros [-> ->].
Qed.

(** A document without [hostId] or without [quantity] fails validation. *)
Lemma wp_Booking_create_rejected input Q s :
  in_hostId input = None \/ in_quantity input = None ->
  Q (Throw ValidationError_Booking) s ->
  wp (Booking_create input) Q s.
Proof.
  intros Hreq HQ. unfold wp, Booking_create, new_Booking.
  destruct (in_userId input), (in_eventId input), (in_hostId input),
    (in_amount input), (in_quantity input); simpl; auto;
    destruct Hreq; discriminate.
Qed.

Ltac wp_run_rejecting :=
  repeat (first
            [ lazymatch goal with
              | |- wp (Booking_create _) _ _ =>
                  apply wp_Booking_create_rejected; [simpl; auto|]
              end
            | wp_prim | wp_case | progress cbn beta iota ]).

(** [confirmPayment] builds its booking without the required [hostId]:
    the save is refused and the catch rethrows, on every path. *)
Lemma confirmPayment_always_fails stripe paymentIntentId' s :
  confirmPayment stripe paymentIntentId' s = (Throw "Failed to confirm payment", s).
Proof.
  apply wp_result. unfold confirmPayment. wp_run_rejecting; auto.
Qed.

(** The webhook path stores nothing either. *)
Lemma handlePaymentSucceeded_stores_nothing paymentIntent s :
  snd (handlePaymentSucceeded paymentIntent s) = s.
Proof.
  change (wp (handlePaymentSucceeded paymentIntent) (fun _ s' => s' = s) s).
  unfold handlePaymentSucceeded. wp_run_rejecting; auto.
Qed.

(** [createBooking] builds its booking without the required [quantity]:
    it answers with an error, whatever the request, and stores nothing. *)
Lemma createBooking_never_creates req_user body s :
  snd (createBooking req_user body s) = s
  /\ forall r, fst (createBooking req_user body s) = Ok r -> is_error r = true.
Proof.
  change (wp (createBooking req_user body)
            (fun r s' => s' = s /\ forall x, r = Ok x -> is_error x = true) s).
  unfold createBooking. wp_run_rejecting;
    (split; [reflexivity | intros x Hx; inversion Hx; subst; reflexivity]).
Qed.

(** ** The event's status after a save *)

(** Whatever is saved through [event.save()], the hook leaves the event
    'full' when the count has reached the maximum, and not 'full' when it is
    below. *)
Lemma eventSchema_pre_save_status e :
  (currentParticipants e >= maxParticipants e ->
   e_status (eventSchema_pre_save e) = E_full)
  /\ (currentParticipants e < maxParticipants e ->
      e_status (eventSchema_pre_save e) <> E_full)
  /\ currentParticipants (eventSchema_pre_save e) = currentParticipants e
  /\ maxParticipants (eventSchema_pre_save e) = maxParticipants e.
Proof.
  unfold eventSchema_pre_save.
  destruct (currentParticipants e >=? maxParticipants e) eqn:Hge.
  - rewrite Z.geb_leb in Hge. apply Z.leb_le in Hge.
    simpl. repeat split; auto. lia.
  - rewrite Z.geb_leb in Hge. apply Z.leb_gt in Hge.
    destruct (EventStatus_eqb (e_status e) E_full) eqn:Hs; simpl.
    + apply Z.ltb_lt in Hge. rewrite Hge. simpl.
      repeat split; auto; try lia. discriminate.
    + apply EventStatus_eqb_neq in Hs. repeat split; auto. lia.
Qed.

(** ** Refunds *)

(** C10.  When the gateway fails to return the payment intent or fails
    to create the refund, [processRefund] throws 'Failed to process refund'
    and the store (the booking with its status, payment status and refund
    fields, and the event with its participant count) is what it was. *)
Theorem refund_gateway_failure_changes_nothing :
  forall (stripe : Stripe) (data : RefundData) (s : Store) (booking : Booking),
    Booking_lookup s (rd_bookingId data) = Some booking ->
    status booking <> B_cancelled ->
    paymentStatus booking = P_paid ->
    gateway_refuses stripe booking data ->
    processRefund stripe data s = (Throw "Failed to process refund", s).
Proof.
  intros stripe data s booking Hl Hs Hp Hg.
  apply wp_result. unfold processRefund. wp_prim. wp_prim. cbn beta iota.
  rewrite Hl.
  replace (BookingStatus_eqb (status booking) B_cancelled) with false
    by (symmetry; now apply BookingStatus_eqb_neq).
  replace (PaymentStatus_eqb (paymentStatus booking) P_paid) with true
    by (symmetry; now apply PaymentStatus_eqb_eq).
  simpl negb. cbn iota.
  unfold gateway_refuses in Hg.
  wp_prim. wp_prim.
  apply wp_stripe_retrieve; [intros paymentIntent Hpi | intros Hpi]; cbn beta iota.
  - rewrite Hpi in Hg. wp_prim.
    apply wp_stripe_refund; [intros refund Hre | intros Hre]; cbn beta iota.
    + congruence.
    + wp_prim. auto.
  - wp_prim. auto.
Qed.

Lemma Qfloor_half n : Qfloor (inject_Z n + (1 # 2)) = n.
Proof.
  unfold Qfloor, Qplus, inject_Z. simpl Qnum. simpl Qden.
  change (Z.pos (1 * 2)) with 2.
  symmetry. apply Z.div_unique with (r := 1); lia.
Qed.

Lemma Math_round_integer (x : Q) (n : Z) : (x == inject_Z n)%Q -> Math_round x = n.
Proof.
  intros H. unfold Math_round. rewrite <- (Qfloor_half n).
  apply Qfloor_comp. now rewrite H.
Qed.





(** ** Capacity checks *)

Ltac zguards :=
  guards;
  repeat match goal with
         | H : (_ >=? _) = _ |- _ => rewrite Z.geb_leb in H
         | H : (_ >? _) = _ |- _ => rewrite Z.gtb_ltb in H
         | H : (_ <=? _) = true |- _ => apply Z.leb_le in H
         | H : (_ <=? _) = false |- _ => apply Z.leb_gt in H
         | H : (_ <? _) = true |- _ => apply Z.ltb_lt in H
         | H : (_ <? _) = false |- _ => apply Z.ltb_ge in H
         end.

(** [createBooking] answers 'Event is full' exactly for an open event
    whose participant count has reached the maximum. *)
Lemma createBooking_full_iff req_user body s :
  fst (createBooking req_user body s) = Ok (errorResponse "Event is full" 400)
  <-> exists event,
        Event_lookup s (cb_eventId body) = Some event
        /\ e_status event = E_open
        /\ currentParticipants event >= maxParticipants event.
Proof.
  change (wp (createBooking req_user body)
            (fun r _ =>
               r = Ok (errorResponse "Event is full" 400)
               <-> exists event,
                     Event_lookup s (cb_eventId body) = Some event
                     /\ e_status event = E_open
                     /\ currentParticipants event >= maxParticipants event) s).
  unfold createBooking. wp_run; zguards;
    (split;
     [ intros Hr; try discriminate Hr;
       try (match goal with e : Event |- _ => exists e end;
            repeat split; solve [assumption | lia])
     | intros (ev & Hev & Hopen & Hfull); simpl in *;
       try reflexivity;
       try match goal with
           | H : Event_lookup _ _ = _ |- _ => rewrite H in Hev
           end;
       try discriminate Hev;
       try (injection Hev as Hev; subst; solve [congruence | lia]) ]).
Qed.

(** [createPaymentIntent] throws 'Not enough spots available' exactly for
    an open event, not yet past, whose non-cancelled bookings and the
    requested quantity exceed the maximum. *)
Lemma createPaymentIntent_full_iff stripe cur now eid uid q s :
  fst (createPaymentIntent stripe cur now eid uid q s)
    = Throw "Not enough spots available"
  <-> exists event,
        Event_lookup s eid = Some event
        /\ e_status event = E_open
        /\ now <= date event
        /\ booked_count s eid + q > maxParticipants event.
Proof.
  change (wp (createPaymentIntent stripe cur now eid uid q)
            (fun r _ =>
               r = Throw "Not enough spots available"
               <-> exists event,
                     Event_lookup s eid = Some event
                     /\ e_status event = E_open
                     /\ now <= date event
                     /\ booked_count s eid + q > maxParticipants event) s).
  unfold createPaymentIntent. wp_run.
  all: try (destruct (paymentIntents_create _ _ _ _); wp_run).
  all: fold (booked_count s eid) in *; zguards.
  all: split;
    [ intros Hr; try discriminate Hr;
      try (match goal with e : Event |- _ => exists e end;
           repeat split; solve [assumption | lia])
    | intros (ev & Hev & Hopen & Hdate & Hfull); simpl in *;
      try reflexivity;
      try match goal with
          | H : Event_lookup _ _ = _ |- _ => rewrite H in Hev
          end;
      try discriminate Hev;
      try (injection Hev as Hev; subst; solve [congruence | lia]) ].
Qed.

(** ** Cancelling twice *)

Lemma set_status_same b : set_status (status b) b = b.
Proof. now destruct b. Qed.

(** C8, as the code has it.  [cancelBooking] has no guard on the current
    status: called by the owner, the host or an admin on a booking that is
    already cancelled, it answers with the success 'Booking cancelled
    successfully' once more, and leaves the events, the users and every
    booking as they were. *)
Theorem cancel_of_cancelled_succeeds :
  forall (stripe : Stripe) (cur : string) (uid id : ObjectId) (s : Store)
         (user : User) (booking : Booking),
    find (fun u => Nat.eqb (u_id u) uid) (users s) = Some user ->
    Booking_lookup s id = Some booking ->
    status booking = B_cancelled ->
    is_owner_host_or_admin booking user = true ->
    bookingSchema_validate booking = true ->
    fst (step stripe cur (OpCancelBooking uid id) s)
      = Responded (successResponse "Booking cancelled successfully" None)
    /\ events (snd (step stripe cur (OpCancelBooking uid id) s)) = events s
    /\ users (snd (step stripe cur (OpCancelBooking uid id) s)) = users s
    /\ forall id',
         Booking_lookup (snd (step stripe cur (OpCancelBooking uid id) s)) id'
         = Booking_lookup s id'.
Proof.
  intros stripe cur uid id s user booking Hu Hl Hs Ha Hv.
  assert (Hrun : step stripe cur (OpCancelBooking uid id) s
                 = (Responded (successResponse "Booking cancelled successfully" None),
                    with_bookings
                      (update_by_id b_id (b_id booking) (set_status B_cancelled)) s)).
  { unfold step, respond, authenticate, bind, User_findById. rewrite Hu.
    unfold cancelBooking, try_catch, bind, Booking_findById.
    fold (Booking_lookup s id). rewrite Hl, Ha, Hs. simpl negb. cbn iota.
    unfold ret at 1. unfold Booking_save.
    replace (bookingSchema_validate (set_status B_cancelled booking)) with true
      by (symmetry; exact Hv).
    reflexivity. }
  rewrite Hrun. simpl. repeat split.
  intros id'. unfold Booking_lookup. simpl.
  rewrite find_update_by_id by reflexivity.
  destruct (find (fun b => Nat.eqb (b_id b) id') (bookings s)) as [b|] eqn:Hb;
    [|reflexivity].
  simpl. destruct (Nat.eqb (b_id b) (b_id booking)) eqn:E; [|reflexivity].
  apply Nat.eqb_eq in E.
  assert (b = booking).
  { fold (Booking_lookup s id') in Hb.
    pose proof (Booking_lookup_id _ _ Hb). pose proof (Booking_lookup_id _ _ Hl).
    congruence. }
  subst b. rewrite <- Hs. now rewrite set_status_same.
Qed.

(** ** The operations on concrete stores *)

Import Fixtures.

(** C1.  The participant count does not follow the counted bookings.
    Cancelling a completed booking leaves [currentParticipants] at 1 while no
    booking of the event is confirmed or completed any more: [cancelBooking]
    only adjusts the event for a confirmed booking.  Refunding a confirmed
    booking of two seats takes [currentParticipants] from 1 to -1:
    [processRefund] subtracts the quantity where [cancelBooking] and
    [confirmBooking] move the count by one. *)
Theorem participant_count_drifts :
  participant_count_ok (store_booked B_completed 1) = true
  /\ fst (step gateway "usd" (OpCancelBooking 20 2) (store_booked B_completed 1))
     = Responded (successResponse "Booking cancelled successfully" None)
  /\ option_map currentParticipants
       (Event_lookup
          (snd (step gateway "usd" (OpCancelBooking 20 2) (store_booked B_completed 1))) 1)
     = Some 1
  /\ counted_bookings
       (snd (step gateway "usd" (OpCancelBooking 20 2) (store_booked B_completed 1))) 1
     = 0
  /\ participant_count_ok
       (snd (step gateway "usd" (OpCancelBooking 20 2) (store_booked B_completed 1)))
     = false
  /\ participant_count_ok (store_booked B_confirmed 2) = true
  /\ fst (step gateway "usd" (OpProcessRefund refund_in_full) (store_booked B_confirmed 2))
     = Resolved
  /\ option_map currentParticipants
       (Event_lookup
          (snd (step gateway "usd" (OpProcessRefund refund_in_full)
                  (store_booked B_confirmed 2))) 1)
     = Some (-1)
  /\ counted_bookings
       (snd (step gateway "usd" (OpProcessRefund refund_in_full)
               (store_booked B_confirmed 2))) 1
     = 0.
Proof. repeat split; reflexivity. Qed.

(** C3.  For an event of price 10 and a request for two seats, the
    document [createBooking] builds has amount 10, not 20, and no quantity;
    the schema requires a quantity, so the insertion is refused and the
    request is answered 500 with the store unchanged.  The same happens for
    a free event, whose document is seeded confirmed and paid. *)
Theorem createBooking_ignores_quantity :
  in_amount (booking_of_request alice two_seats (paid_event 5 0 E_open [])) = Some (10 # 1)
  /\ in_quantity (booking_of_request alice two_seats (paid_event 5 0 E_open [])) = None
  /\ ~ (10 # 1 == (10 # 1) * inject_Z 2)%Q
  /\ step gateway "usd" (OpCreateBooking 20 two_seats) store_open
     = (Responded (errorResponse ValidationError_Booking 500), store_open)
  /\ in_status (booking_of_request alice two_seats free_event) = Some B_confirmed
  /\ in_paymentStatus (booking_of_request alice two_seats free_event) = Some P_paid
  /\ step gateway "usd" (OpCreateBooking 20 two_seats) store_free
     = (Responded (errorResponse ValidationError_Booking 500), store_free).
Proof. repeat split; try reflexivity. intros H. discriminate H. Qed.

(** C5.  The two capacity checks follow neither the rule nor each
    other.  With one of two places taken, by a participant who joined
    without a booking, two more seats do not fit; yet [createBooking], whose
    guard compares the count with the maximum and reads no quantity, does
    not answer 'Event is full', and [createPaymentIntent], which counts
    booking documents and not participants, issues an intent for the two
    seats.  With the single place of an event held by a pending booking that
    the count does not include, one seat fits by the rule; yet
    [createPaymentIntent] refuses it, while [createBooking]'s guard and
    [joinEvent], which read the count, let the user through. *)
Theorem capacity_checks_disagree :
  Event_lookup store_joined 1 = Some (paid_event 2 1 E_open [21%nat])
  /\ booked_count store_joined 1 = 0
  /\ fst (createBooking alice two_seats store_joined)
     = Ok (errorResponse ValidationError_Booking 500)
  /\ ~ createBooking_capacity_rule alice two_seats 2
         (paid_event 2 1 E_open [21%nat]) store_joined
  /\ createPaymentIntent gateway "usd" 0 1 20 2 store_joined
     = (Ok (mkPaymentIntentResponse "pi_2_secret" "pi_2" 2000 "usd"), store_joined)
  /\ ~ createPaymentIntent_capacity_rule gateway "usd" 0 20 2
         (paid_event 2 1 E_open [21%nat]) store_joined
  /\ Event_lookup store_held 1 = Some (paid_event 1 0 E_open [])
  /\ booked_count store_held 1 = 1
  /\ fst (createPaymentIntent gateway "usd" 0 1 21 1 store_held)
     = Throw "Not enough spots available"
  /\ ~ createPaymentIntent_capacity_rule gateway "usd" 0 21 1
         (paid_event 1 0 E_open []) store_held
  /\ fst (createBooking bob (mkCreateBookingBody 1 (Some 1) None None) store_held)
     = Ok (errorResponse ValidationError_Booking 500)
  /\ fst (joinEvent bob 1 store_held)
     = Ok (successResponse "Successfully joined the event" None).
Proof.
  repeat split; try reflexivity.
  - intros [_ H]. assert (Hq : 1 + 2 > 2) by lia. specialize (H Hq).
    vm_compute in H. discriminate H.
  - intros [_ H]. assert (Hq : 1 + 2 > 2) by lia. specialize (H Hq).
    vm_compute in H. discriminate H.
  - intros [H _]. assert (Hr : fst (createPaymentIntent gateway "usd" 0 1 21 1 store_held)
                               = Throw "Not enough spots available") by reflexivity.
    specialize (H Hr). simpl in H. lia.
Qed.

(** C7.  For the succeeded intent [pi_1], confirming twice and then
    delivering the webhook stores no booking at all and never increments the
    participant count: the document both paths build has no [hostId], which
    the schema requires. *)
Theorem confirmPayment_stores_no_booking :
  step gateway "usd" (OpConfirmPayment "pi_1") store_open
  = (Rejected "Failed to confirm payment", store_open)
  /\ run gateway "usd" [OpConfirmPayment "pi_1"; OpConfirmPayment "pi_1"] store_open
     = store_open
  /\ step gateway "usd" (OpWebhook (payment_intent_succeeded intent1)) store_open
     = (Rejected ValidationError_Booking, store_open)
  /\ run gateway "usd"
       [OpWebhook (payment_intent_succeeded intent1); OpConfirmPayment "pi_1"] store_open
     = store_open
  /\ bookings store_open = []
  /\ option_map currentParticipants (Event_lookup store_open 1) = Some 0.
Proof. repeat split; reflexivity. Qed.

(** C9.  Refunding the one booking of a full event of one place takes
    [currentParticipants] to 0 and leaves the status 'full': the update goes
    through [findByIdAndUpdate], which does not run the [pre('save')] hook.
    [cancelBooking], which saves the event, reopens it. *)
Theorem refund_leaves_event_full :
  fst (step gateway "usd" (OpProcessRefund refund_in_full) store_full) = Resolved
  /\ Event_lookup (snd (step gateway "usd" (OpProcessRefund refund_in_full) store_full)) 1
     = Some (paid_event 1 0 E_full [20%nat])
  /\ status_of (snd (step gateway "usd" (OpProcessRefund refund_in_full) store_full)) 2
     = Some B_cancelled
  /\ Event_lookup (snd (step gateway "usd" (OpCancelBooking 20 2) store_full)) 1
     = Some (paid_event 1 0 E_open []).
Proof. repeat split; reflexivity. Qed.

(** ** Counterexamples to the claims as stated *)

(** C6 as stated fails: the host sets a confirmed booking back to
    pending through [updateBooking]. *)
Lemma host_resets_confirmed_booking :
  ~ follows_spec_lifecycle gateway "usd"
      (OpUpdateBooking 10 2 (Some "pending") None None) (store_booked B_confirmed 1).
Proof.
  intros H.
  assert (Hne : B_confirmed <> B_pending) by discriminate.
  specialize (H 2%nat B_confirmed B_pending eq_refl eq_refl Hne).
  discriminate H.
Qed.

(** C8 as stated fails: the owner cancels a cancelled booking and is
    answered with a success. *)
Lemma cancelled_booking_cancelled_again :
  ~ cancel_of_cancelled_rejected gateway "usd" 20 2 store_cancelled.
Proof.
  intros H. destruct (H eq_refl) as (r & Hr & Hc).
  vm_compute in Hr. injection Hr as <-. discriminate Hc.
Qed.

(** ** The theorems at concrete inputs *)

Lemma at_most_one_active_booking_witness :
  unique_user_event (bookings (store_booked B_confirmed 1)) = true
  /\ (List.length
        (active_bookings
           (run gateway "usd"
              [OpWebhook (payment_intent_succeeded intent1);
               OpCreateBooking 20 two_seats;
               OpUpdateBooking 10 2 (Some "cancelled") None None;
               OpConfirmPayment "pi_1"]
              (store_booked B_confirmed 1))
           20 1) <= 1)%nat.
Proof.
  split; [reflexivity|].
  apply at_most_one_active_booking. reflexivity.
Defined.



Lemma status_changes_by_operation_witness :
  code_transition (store_booked B_confirmed 1)
    (OpUpdateBooking 10 2 (Some "pending") None None) 2 B_confirmed B_pending.
Proof.
  apply (status_changes_by_operation gateway "usd").
  - reflexivity.
  - reflexivity.
  - discriminate.
Defined.

Lemma cancel_of_cancelled_succeeds_witness :
  fst (step gateway "usd" (OpCancelBooking 20 2) store_cancelled)
    = Responded (successResponse "Booking cancelled successfully" None)
  /\ events (snd (step gateway "usd" (OpCancelBooking 20 2) store_cancelled))
     = events store_cancelled
  /\ users (snd (step gateway "usd" (OpCancelBooking 20 2) store_cancelled))
     = users store_cancelled
  /\ forall id',
       Booking_lookup (snd (step gateway "usd" (OpCancelBooking 20 2) store_cancelled)) id'
       = Booking_lookup store_cancelled id'.
Proof.
  apply (cancel_of_cancelled_succeeds gateway "usd" 20 2 store_cancelled
           (user := alice) (booking := alice_booking B_cancelled 1)).
  - reflexivity.
  - reflexivity.
  - reflexivity.
  - reflexivity.
  - reflexivity.
Defined.

Lemma refund_gateway_failure_changes_nothing_witness :
  gateway_refuses gateway_no_refund (alice_booking B_confirmed 1) refund_in_full
  /\ processRefund gateway_no_refund refund_in_full (store_booked B_confirmed 1)
     = (Throw "Failed to process refund", store_booked B_confirmed 1).
Proof.
  split; [reflexivity|].
  apply (refund_gateway_failure_changes_nothing gateway_no_refund refund_in_full
           (store_booked B_confirmed 1) (booking := alice_booking B_confirmed 1)).
  - reflexivity.
  - discriminate.
  - reflexivity.
  - reflexivity.
Defined.

(** * Further properties of the code *)

(** ** Symbolic execution, continued *)

Lemma wp_snd A (m : M A) (P : Store -> Prop) s :
  wp m (fun _ s' => P s') s -> P (snd (m s)).
Proof. exact (fun H => H). Qed.

Lemma wp_Event_find query Q s :
  Q (Ok (filter query (events s))) s -> wp (Event_find query) Q s.
Proof. exact (fun H => H). Qed.

Lemma wp_Booking_find query Q s :
  Q (Ok (filter query (bookings s))) s -> wp (Booking_find query) Q s.
Proof. exact (fun H => H). Qed.

Lemma wp_Event_findByIdAndDelete id Q s :
  Q (Ok tt) (with_events (filter (fun e => negb (Nat.eqb (e_id e) id))) s) ->
  wp (Event_findByIdAndDelete id) Q s.
Proof. exact (fun H => H). Qed.

Ltac wp_more :=
  lazymatch goal with
  | |- wp (Event_find _) _ _ => apply wp_Event_find
  | |- wp (Booking_find _) _ _ => apply wp_Booking_find
  | |- wp (Event_findByIdAndDelete _) _ _ => apply wp_Event_findByIdAndDelete
  | |- wp (Booking_create _) _ _ =>
      apply wp_Booking_create_rejected; [simpl; auto|]
  end.

Ltac wp_all := repeat (first [wp_more | wp_prim | wp_case | progress cbn beta iota]).

Ltac unfold_handlers :=
  unfold authenticate, createBooking, createPaymentIntent_handler, createPaymentIntent,
    updateBooking, cancelBooking, confirmBooking, joinEvent, leaveEvent, cancelEvent,
    confirmPayment, processRefund, handleWebhook, handlePaymentSucceeded,
    handlePaymentFailed, handleDisputeCreated.

Lemma forallb_update_by_id {D : Type} (P : D -> bool) (get_id : D -> ObjectId) id
    (f : D -> D) l :
  (forall d, P d = true -> P (f d) = true) ->
  forallb P l = true ->
  forallb P (update_by_id get_id id f l) = true.
Proof.
  intros Hf. unfold update_by_id. induction l as [|d l IH]; simpl; intros H.
  - reflexivity.
  - apply andb_prop in H. destruct H as [Hd Hl].
    apply andb_true_intro. split; [|now apply IH].
    destruct (Nat.eqb (get_id d) id); auto.
Qed.

Lemma forallb_map_keeping {D : Type} (P : D -> bool) (f : D -> D) l :
  (forall d, P d = true -> P (f d) = true) ->
  forallb P l = true ->
  forallb P (map f l) = true.
Proof.
  intros Hf. induction l as [|d l IH]; simpl; intros H.
  - reflexivity.
  - apply andb_prop in H. destruct H as [Hd Hl].
    apply andb_true_intro. split; auto.
Qed.

(** ** Refund amounts and payment status *)

Lemma update_paths_refund st sr nt b :
  refund_marks_refunded (update_paths st sr nt b) = refund_marks_refunded b.
Proof.
  unfold update_paths.
  destruct st as [v|]; [destruct (parse_BookingStatus v)|];
    destruct sr, nt; reflexivity.
Qed.

Lemma step_keeps_refund_marks stripe cur op s :
  forallb refund_marks_refunded (bookings s) = true ->
  forallb refund_marks_refunded (bookings (snd (step stripe cur op s))) = true.
Proof.
  intros Hinv.
  destruct op; simpl step; rewrite ?snd_respond, ?snd_settle;
    apply (wp_snd _ (fun s' => forallb refund_marks_refunded (bookings s') = true));
    unfold_handlers; try destruct event; wp_all; simpl; try assumption.
  all: try (apply forallb_update_by_id; [|assumption]; intros d Hd;
            first [ exact Hd | now rewrite update_paths_refund | reflexivity ]).
  all: try (destruct (paymentIntents_create _ _ _ _); wp_all; simpl; assumption).
  apply forallb_map_keeping; [|assumption].
  intros d Hd. destruct (_ && _); exact Hd.
Qed.

(** X1.  A refund amount is recorded only together with the payment
    status 'refunded': whatever operations run (requests, payment-service
    calls, webhooks), if every stored booking with a [refundAmount] has
    [paymentStatus] refunded, this is still so afterwards. *)
Theorem refund_amount_only_on_refunded :
  forall (stripe : Stripe) (cur : string) (ops : list Op) (s : Store),
    forallb refund_marks_refunded (bookings s) = true ->
    forallb refund_marks_refunded (bookings (run stripe cur ops s)) = true.
Proof.
  intros stripe cur ops. induction ops as [|op ops IH]; simpl; intros s Hinv.
  - assumption.
  - apply IH. now apply step_keeps_refund_marks.
Qed.

Lemma refund_amount_only_on_refunded_witness :
  forallb refund_marks_refunded
    (bookings (run Fixtures.gateway "usd"
                 [OpProcessRefund Fixtures.refund_of_5;
                  OpUpdateBooking 10 2 (Some "confirmed") None None]
                 (Fixtures.store_booked B_confirmed 1))) = true.
Proof.
  apply refund_amount_only_on_refunded. reflexivity.
Defined.

(** ** Earnings *)

Lemma fold_sum_zero (f : Booking -> Q) l a :
  (forall b, In b l -> (f b == 0)%Q) ->
  (fold_left (fun sum b => sum + f b)%Q l a == a)%Q.
Proof.
  revert a. induction l as [|x l IH]; simpl; intros a Hz.
  - reflexivity.
  - rewrite IH by (intros b Hb; apply Hz; now right).
    rewrite (Hz x) by now left. apply Qplus_0_r.
Qed.

(** X2.  [getHostEarnings] sums [refundAmount] over bookings it selects
    by [paymentStatus] 'paid'.  In a store where refund amounts sit only on
    refunded payments (X1), it therefore reports [totalRefunds] 0 and
    [netEarnings] equal to [totalRevenue], whatever the host and filters; it
    does not write to the store. *)
Theorem earnings_report_no_refunds :
  forall (createdAt : Booking -> Z) (hostId' : ObjectId)
         (filters : option EarningsFilters) (s : Store),
    forallb refund_marks_refunded (bookings s) = true ->
    exists earnings,
      getHostEarnings createdAt hostId' filters s = (Ok earnings, s)
      /\ (totalRefunds earnings == 0)%Q
      /\ (netEarnings earnings == totalRevenue earnings)%Q.
Proof.
  intros createdAt hostId' filters s Hinv.
  cbv beta iota zeta delta [getHostEarnings bind Event_find Booking_find ret].
  eexists. split; [reflexivity|]. simpl.
  assert (Hz : (fold_left (fun sum b => sum + refundAmount_or_0 b)%Q
                  (filter
                     (earnings_query createdAt
                        (map e_id (filter (fun e => Nat.eqb (e_hostId e) hostId')
                                     (events s)))
                        filters)
                     (bookings s)) 0 == 0)%Q).
  { apply fold_sum_zero. intros b Hb. apply filter_In in Hb. destruct Hb as [Hin Hq].
    rewrite forallb_forall in Hinv. specialize (Hinv b Hin).
    unfold earnings_query in Hq.
    repeat (apply andb_prop in Hq; destruct Hq as [Hq ?]).
    unfold refund_marks_refunded in Hinv. unfold refundAmount_or_0.
    destruct (refundAmount b); [|reflexivity].
    guards. congruence. }
  split; [exact Hz|].
  rewrite Hz. unfold Qminus. setoid_replace (- 0)%Q with 0%Q by reflexivity.
  apply Qplus_0_r.
Qed.

Lemma earnings_report_no_refunds_witness :
  exists earnings,
    getHostEarnings Accounts_Fixtures.made_at_50 10 None
      (run Fixtures.gateway "usd" [OpProcessRefund Fixtures.refund_of_5]
         Accounts_Fixtures.store_sold_out)
    = (Ok earnings,
       run Fixtures.gateway "usd" [OpProcessRefund Fixtures.refund_of_5]
         Accounts_Fixtures.store_sold_out)
    /\ (totalRefunds earnings == 0)%Q
    /\ (netEarnings earnings == totalRevenue earnings)%Q.
Proof.
  apply earnings_report_no_refunds. reflexivity.
Defined.

(** X3.  An [eventId] filter replaces the restriction of the earnings
    query to the host's own events: with such a filter [getHostEarnings]
    reports the same figures for every [hostId], the event's host or not. *)
Theorem earnings_event_filter_ignores_host :
  forall (createdAt : Booking -> Z) (hostA hostB : ObjectId)
         (startDate endDate : option Z) (eid : ObjectId) (s : Store),
    getHostEarnings createdAt hostA
      (Some (mkEarningsFilters startDate endDate (Some eid))) s
    = getHostEarnings createdAt hostB
        (Some (mkEarningsFilters startDate endDate (Some eid))) s.
Proof.
  intros createdAt hostA hostB startDate endDate eid s.
  cbv beta iota zeta delta [getHostEarnings bind Event_find Booking_find ret].
  assert (Hq : forall l1 l2,
             filter (earnings_query createdAt l1
                       (Some (mkEarningsFilters startDate endDate (Some eid))))
                    (bookings s)
             = filter (earnings_query createdAt l2
                         (Some (mkEarningsFilters startDate endDate (Some eid))))
                      (bookings s)).
  { intros l1 l2. apply filter_ext. intros b. reflexivity. }
  now rewrite (Hq _ (map e_id (filter (fun e => Nat.eqb (e_hostId e) hostB) (events s)))).
Qed.

(** ** Payouts *)

(** X4.  [createPayout] never writes to the store, and it pays out only
    to a stored user whose role is host, who has connected an account, for
    an amount within the net earnings [getHostEarnings] reports at that
    moment.  As nothing records the payout, the earnings are the same
    before and after it. *)
Theorem payout_within_unchanged_earnings :
  forall (createdAt : Booking -> Z) (cur : string)
         (stripeAccountId : User -> string)
         (transfers_create : Z -> string -> string -> option Transfer)
         (hostId' : ObjectId) (amount' : Q) (s : Store),
    snd (createPayout cur createdAt stripeAccountId transfers_create hostId' amount' s) = s
    /\ forall payout,
         fst (createPayout cur createdAt stripeAccountId transfers_create hostId' amount' s)
           = Ok payout ->
         exists host' earnings,
           find (fun u => Nat.eqb (u_id u) hostId') (users s) = Some host'
           /\ role host' = HOST
           /\ stripeAccountId host' <> EmptyString
           /\ getHostEarnings createdAt hostId' None s = (Ok earnings, s)
           /\ (amount' <= netEarnings earnings)%Q
           /\ payout_amount payout = amount'.
Proof.
  intros createdAt cur stripeAccountId transfers_create hostId' amount' s.
  set (P := fun (r : Result Payout) (s' : Store) =>
              s' = s
              /\ forall payout, r = Ok payout ->
                   exists host' earnings,
                     find (fun u => Nat.eqb (u_id u) hostId') (users s) = Some host'
                     /\ role host' = HOST
                     /\ stripeAccountId host' <> EmptyString
                     /\ getHostEarnings createdAt hostId' None s = (Ok earnings, s)
                     /\ (amount' <= netEarnings earnings)%Q
                     /\ payout_amount payout = amount').
  change (wp (createPayout cur createdAt stripeAccountId transfers_create hostId' amount')
            P s).
  unfold createPayout. wp_prim. wp_prim. cbn beta iota.
  destruct (find (fun u => Nat.eqb (u_id u) hostId') (users s)) as [host'|] eqn:Hh;
    [|wp_prim; split; [reflexivity | discriminate]].
  destruct (negb (UserRole_eqb (role host') HOST)) eqn:Hr;
    [wp_prim; split; [reflexivity | discriminate]|].
  wp_prim.
  change (wp (getHostEarnings createdAt hostId' None)
            (fun r s' =>
               match r with
               | Ok earnings =>
                   wp (if Qlt_bool (netEarnings earnings) amount'
                       then throw "Insufficient available balance"
                       else
                         try_catch
                           (if negb (truthy_string (stripeAccountId host'))
                            then throw "Host has not connected a Stripe account for payouts"
                            else
                              match transfers_create (Math_round (amount' * 100)) cur
                                      (stripeAccountId host') with
                              | None => throw GatewayError
                              | Some transfer =>
                                  ret (mkPayout (transfer_id transfer) amount' cur
                                         (transfer_reversed transfer)
                                         (transfer_created transfer))
                              end)
                           (fun _ => throw "Failed to create payout")) P s'
               | Throw e => P (Throw e) s'
               end) s).
  unfold wp at 1.
  destruct (getHostEarnings createdAt hostId' None s) as [r s1] eqn:He.
  assert (Hs1 : s1 = s /\ exists earnings, r = Ok earnings).
  { revert He. cbv beta iota zeta delta [getHostEarnings bind Event_find Booking_find ret].
    intros He. inversion He. split; [reflexivity | eauto]. }
  destruct Hs1 as [-> [earnings ->]]. simpl fst. simpl snd. cbn beta iota.
  destruct (Qlt_bool (netEarnings earnings) amount') eqn:Hlt;
    [wp_prim; split; [reflexivity | discriminate]|].
  wp_prim.
  destruct (negb (truthy_string (stripeAccountId host'))) eqn:Ha;
    [wp_prim; cbn beta iota; wp_prim; split; [reflexivity | discriminate]|].
  destruct (transfers_create (Math_round (amount' * 100)) cur (stripeAccountId host'))
    as [transfer|];
    [|wp_prim; cbn beta iota; wp_prim; split; [reflexivity | discriminate]].
  wp_prim. cbn beta iota. split; [reflexivity|].
  intros payout Hp. injection Hp as <-.
  exists host', earnings. repeat split; auto.
  - apply negb_false_iff in Hr. destruct (role host'); simpl in Hr; congruence.
  - apply negb_false_iff in Ha. unfold truthy_string in Ha.
    apply negb_true_iff in Ha. intros E. rewrite E in Ha. discriminate Ha.
  - unfold Qlt_bool in Hlt. apply negb_false_iff in Hlt. now apply Qle_bool_iff.
Qed.

Lemma payout_within_unchanged_earnings_witness :
  exists host' earnings,
    find (fun u => Nat.eqb (u_id u) 10) (users Accounts_Fixtures.store_sold_out)
      = Some host'
    /\ role host' = HOST
    /\ Accounts_Fixtures.accounts host' <> EmptyString
    /\ getHostEarnings Accounts_Fixtures.made_at_50 10 None Accounts_Fixtures.store_sold_out
       = (Ok earnings, Accounts_Fixtures.store_sold_out)
    /\ (15 # 1 <= netEarnings earnings)%Q
    /\ payout_amount (mkPayout "tr_1" (15 # 1) "usd" false 60) = 15 # 1.
Proof.
  apply (proj2 (payout_within_unchanged_earnings Accounts_Fixtures.made_at_50 "usd"
                  Accounts_Fixtures.accounts Accounts_Fixtures.transfers 10 (15 # 1)
                  Accounts_Fixtures.store_sold_out)).
  reflexivity.
Defined.

(** ** Amounts in minor units *)

Lemma Math_round_cents (n : Z) : Math_round ((n # 100) * 100) = n.
Proof.
  apply Math_round_integer. unfold Qeq. simpl. lia.
Qed.

(** X5.  The dollars a confirmation stores for an intent ([amount / 100])
    validate against that intent: [validatePayment] answers whether the
    intent has succeeded, the amount check always passing; and it answers
    [false], without throwing, when the gateway cannot return the intent. *)
Theorem validatePayment_of_stored_amount :
  forall (stripe : Stripe) (paymentIntentId' : string) (s : Store),
    match paymentIntents_retrieve stripe (Some paymentIntentId') with
    | Some paymentIntent =>
        in_amount (booking_of_intent paymentIntentId' paymentIntent 0 0 1)
          = Some (pi_amount paymentIntent # 100)
        /\ validatePayment stripe paymentIntentId' (pi_amount paymentIntent # 100) s
           = (Ok (String.eqb (pi_status paymentIntent) "succeeded"), s)
    | None =>
        forall expectedAmount,
          validatePayment stripe paymentIntentId' expectedAmount s = (Ok false, s)
    end.
Proof.
  intros stripe paymentIntentId' s.
  unfold validatePayment, try_catch, bind, stripe_retrieve.
  destruct (paymentIntents_retrieve stripe (Some paymentIntentId')) as [paymentIntent|].
  - split; [reflexivity|]. unfold ret.
    now rewrite Math_round_cents, Z.eqb_refl, andb_true_r.
  - reflexivity.
Qed.

(** X6.  For a price in whole cents, [createPaymentIntent] asks the
    gateway for exactly cents times quantity, without rounding loss, and
    returns that amount; it stores nothing. *)
Theorem createPaymentIntent_amount_in_cents :
  forall (stripe : Stripe) (cur : string) (now : Z) (eid uid : ObjectId) (q cents : Z)
         (s : Store) (event : Event) (paymentIntent : PaymentIntent),
    Event_lookup s eid = Some event ->
    e_status event = E_open ->
    now <= date event ->
    booked_count s eid + q <= maxParticipants event ->
    (price event == cents # 100)%Q ->
    paymentIntents_create stripe (cents * q) cur
      (mkMetadata (Some eid) (Some uid) None (Some q)) = Some paymentIntent ->
    createPaymentIntent stripe cur now eid uid q s
    = (Ok (mkPaymentIntentResponse (pi_client_secret paymentIntent) (pi_id paymentIntent)
             (cents * q) cur), s).
Proof.
  intros stripe cur now eid uid q cents s event paymentIntent Hev Hopen Hdate Hcap Hprice Hpi.
  assert (Hamount : Math_round (price event * inject_Z q * 100) = cents * q).
  { apply Math_round_integer. rewrite Hprice. unfold Qeq. simpl. lia. }
  apply wp_result. unfold createPaymentIntent. wp_prim. wp_prim. cbn beta iota.
  rewrite Hev, Hopen. simpl negb. cbn iota.
  replace (date event <? now) with false by (symmetry; apply Z.ltb_ge; lia).
  wp_prim. wp_prim. cbn beta iota. fold (booked_count s eid).
  replace (booked_count s eid + q >? maxParticipants event) with false
    by (symmetry; rewrite Z.gtb_ltb; apply Z.ltb_ge; lia).
  cbn zeta. rewrite Hamount, Hpi. wp_prim. auto.
Qed.

Lemma createPaymentIntent_amount_in_cents_witness :
  createPaymentIntent Fixtures.gateway "usd" 0 1 20 2 Fixtures.store_open
  = (Ok (mkPaymentIntentResponse "pi_2_secret" "pi_2" (1000 * 2) "usd"),
     Fixtures.store_open).
Proof.
  apply (@createPaymentIntent_amount_in_cents Fixtures.gateway "usd" 0 1%nat 20%nat 2 1000
           Fixtures.store_open (Fixtures.paid_event 5 0 E_open [])
           (mkPaymentIntent "pi_2" "requires_payment_method" 2000 "usd" "pi_2_secret"
              (mkMetadata (Some 1%nat) (Some 20%nat) None (Some 2)))).
  - reflexivity.
  - reflexivity.
  - vm_compute. discriminate.
  - vm_compute. discriminate.
  - reflexivity.
  - reflexivity.
Defined.

(** ** The event's status and the participant count *)

Lemma pre_save_follows_count e : status_follows_count (eventSchema_pre_save e) = true.
Proof.
  unfold status_follows_count, eventSchema_pre_save.
  destruct (currentParticipants e >=? maxParticipants e) eqn:Hge.
  - simpl. now rewrite Hge.
  - destruct (EventStatus_eqb (e_status e) E_full) eqn:Hs; simpl.
    + rewrite Z.geb_leb in Hge. apply Z.leb_gt in Hge.
      apply Z.ltb_lt in Hge. rewrite Hge. simpl.
      apply Z.ltb_lt in Hge. rewrite Z.geb_leb.
      replace (maxParticipants e <=? currentParticipants e) with false
        by (symmetry; apply Z.leb_gt; lia).
      reflexivity.
    + now rewrite Hge, Hs.
Qed.

Lemma step_keeps_status_follows_count stripe cur op s :
  bypasses_save op = false ->
  forallb status_follows_count (events s) = true ->
  forallb status_follows_count (events (snd (step stripe cur op s))) = true.
Proof.
  intros Hop Hinv.
  destruct op; try discriminate Hop; simpl step; rewrite ?snd_respond, ?snd_settle;
    apply (wp_snd _ (fun s' => forallb status_follows_count (events s') = true));
    unfold_handlers; try destruct event; wp_all; simpl; try assumption.
  all: try (destruct (paymentIntents_create _ _ _ _); wp_all; simpl; assumption).
  all: apply forallb_update_by_id; [|assumption]; intros d _;
    apply pre_save_follows_count.
Qed.

(** X7.  Of the operations modelled here (the booking, join and leave
    requests, [cancelEvent], the payment-service calls and the webhook),
    every one except [processRefund] keeps the status of every event in
    step with its participant count: 'full' exactly when
    [currentParticipants] has reached [maxParticipants].  These handlers
    write the event through [event.save()], whose hook sets the status, and
    [confirmPayment] and the payment webhook never reach their [$inc].  The
    event controller's [updateEvent] and the admin's [updateEventStatus] are
    not among them: they write through [findByIdAndUpdate], which runs no
    hook. *)
Theorem status_follows_count_kept :
  forall (stripe : Stripe) (cur : string) (ops : list Op) (s : Store),
    forallb (fun op => negb (bypasses_save op)) ops = true ->
    forallb status_follows_count (events s) = true ->
    forallb status_follows_count (events (run stripe cur ops s)) = true.
Proof.
  intros stripe cur ops. induction ops as [|op ops IH]; simpl; intros s Hops Hinv.
  - assumption.
  - apply andb_prop in Hops. destruct Hops as [Hop Hops].
    apply IH; [assumption|].
    apply step_keeps_status_follows_count; [|assumption].
    now apply negb_true_iff.
Qed.

Lemma status_follows_count_kept_witness :
  forallb status_follows_count
    (events (run Fixtures.gateway "usd"
               [OpCancelBooking 20 2; OpJoinEvent 21 1; OpLeaveEvent 21 1;
                OpConfirmPayment "pi_1"]
               Fixtures.store_full)) = true.
Proof.
  apply status_follows_count_kept; reflexivity.
Defined.

(** ** Joining and leaving an event *)

Lemma find_update_by_id_gen {D : Type} (get_id : D -> ObjectId) id' id (f : D -> D) l :
  (forall d, get_id (f d) = get_id d) ->
  find (fun d => Nat.eqb (get_id d) id') (update_by_id get_id id f l)
  = option_map (fun d => if Nat.eqb (get_id d) id then f d else d)
      (find (fun d => Nat.eqb (get_id d) id') l).
Proof.
  intros Hf. unfold update_by_id. apply find_map_preserving.
  intros x. destruct (Nat.eqb (get_id x) id); [now rewrite Hf | reflexivity].
Qed.

Lemma e_id_pre_save e : e_id (eventSchema_pre_save e) = e_id e.
Proof.
  unfold eventSchema_pre_save.
  destruct (currentParticipants e >=? maxParticipants e); [reflexivity|].
  destruct (EventStatus_eqb (e_status e) E_full && _); reflexivity.
Qed.

Lemma Event_lookup_id s id e : Event_lookup s id = Some e -> e_id e = id.
Proof.
  unfold Event_lookup. intros H. apply find_some in H. destruct H as [_ H].
  now apply Nat.eqb_eq.
Qed.

Lemma includes_push l x : includes (push l x) x = true.
Proof.
  unfold includes, push. rewrite existsb_app. simpl.
  now rewrite Nat.eqb_refl, orb_true_r.
Qed.


Lemma pull_absent l x : includes l x = false -> pull l x = l.
Proof.
  unfold includes, pull. induction l as [|y l IH]; simpl; intros H; [reflexivity|].
  apply orb_false_iff in H. destruct H as [Hy Hl].
  rewrite Nat.eqb_sym, Hy. simpl. now rewrite IH.
Qed.

Lemma pull_push l x : includes l x = false -> pull (push l x) x = l.
Proof.
  intros H. unfold push, pull. rewrite filter_app. simpl.
  rewrite Nat.eqb_refl. simpl. rewrite app_nil_r. now apply pull_absent.
Qed.

(** Validation reads the date, the count, the maximum and the price. *)
Lemma eventSchema_validate_count loaded e e' :
  date e' = date e ->
  maxParticipants e' = maxParticipants e ->
  price e' = price e ->
  0 <= currentParticipants e' ->
  eventSchema_validate loaded e = true ->
  eventSchema_validate loaded e' = true.
Proof.
  unfold eventSchema_validate. intros -> -> -> Hc Hv.
  repeat (apply andb_prop in Hv; destruct Hv as [Hv ?]).
  repeat (apply andb_true_intro; split); auto.
  now apply Z.leb_le.
Qed.

Lemma eventSchema_validate_nonneg loaded e :
  eventSchema_validate loaded e = true -> 0 <= currentParticipants e.
Proof.
  unfold eventSchema_validate. intros Hv.
  repeat (apply andb_prop in Hv; destruct Hv as [Hv ?]).
  now apply Z.leb_le.
Qed.

(** The document [joinEvent] saves for an event. *)
Lemma joinEvent_saved req_user id s event :
  Event_lookup s id = Some event ->
  e_status event = E_open ->
  currentParticipants event < maxParticipants event ->
  includes (participants event) (u_id req_user) = false ->
  eventSchema_validate (loadedAt s)
    (let e1 := if includes (waitingList event) (u_id req_user)
               then set_waitingList (pull (waitingList event) (u_id req_user)) event
               else event in
     set_currentParticipants (currentParticipants e1 + 1)
       (set_participants (push (participants e1) (u_id req_user)) e1)) = true ->
  joinEvent req_user id s
  = (Ok (successResponse "Successfully joined the event" None),
     with_users
       (update_by_id u_id (u_id req_user)
          (fun u => set_joinedEvents (push (joinedEvents u) (e_id event)) u))
       (with_events
          (update_by_id e_id (e_id event)
             (fun e =>
                eventSchema_pre_save
                  (let e1 := if includes (waitingList e) (u_id req_user)
                             then set_waitingList (pull (waitingList e) (u_id req_user)) e
                             else e in
                   set_currentParticipants (currentParticipants e1 + 1)
                     (set_participants (push (participants e1) (u_id req_user)) e1))))
          s)).
Proof.
  intros Hev Hopen Hcap Hnew Hvalid.
  apply wp_result. unfold joinEvent. wp_prim. wp_prim. wp_prim. cbn beta iota.
  rewrite Hev, Hopen. simpl negb. cbn iota.
  replace (currentParticipants event >=? maxParticipants event) with false
    by (symmetry; rewrite Z.geb_leb; apply Z.leb_gt; lia).
  rewrite Hnew. wp_prim.
  apply wp_Event_save; intros Hv.
  - wp_prim. wp_prim. cbn beta iota. wp_prim. auto.
  - exfalso. cbn zeta in Hvalid. congruence.
Qed.

(** When the validation of that document fails, [joinEvent] answers 500
    and nothing is written. *)
Lemma joinEvent_refused req_user id s event :
  Event_lookup s id = Some event ->
  e_status event = E_open ->
  currentParticipants event < maxParticipants event ->
  includes (participants event) (u_id req_user) = false ->
  eventSchema_validate (loadedAt s)
    (let e1 := if includes (waitingList event) (u_id req_user)
               then set_waitingList (pull (waitingList event) (u_id req_user)) event
               else event in
     set_currentParticipants (currentParticipants e1 + 1)
       (set_participants (push (participants e1) (u_id req_user)) e1)) = false ->
  joinEvent req_user id s = (Ok (errorResponse ValidationError_Event 500), s).
Proof.
  intros Hev Hopen Hcap Hnew Hvalid.
  apply wp_result. unfold joinEvent. wp_prim. wp_prim. wp_prim. cbn beta iota.
  rewrite Hev, Hopen. simpl negb. cbn iota.
  replace (currentParticipants event >=? maxParticipants event) with false
    by (symmetry; rewrite Z.geb_leb; apply Z.leb_gt; lia).
  rewrite Hnew. wp_prim.
  apply wp_Event_save; intros Hv.
  - exfalso. cbn zeta in Hvalid. congruence.
  - wp_prim. auto.
Qed.




(** The stored event after the writes of [leaveEvent]. *)
Lemma leaveEvent_accepted req_user id s event :
  Event_lookup s id = Some event ->
  includes (participants event) (u_id req_user) = true ->
  1 <= currentParticipants event ->
  eventSchema_validate (loadedAt s) event = true ->
  leaveEvent req_user id s
  = (Ok (successResponse "Successfully left the event" None),
     with_users
       (update_by_id u_id (u_id req_user)
          (fun u => set_joinedEvents (pull (joinedEvents u) id) u))
       (with_events
          (update_by_id e_id (e_id event)
             (fun e =>
                eventSchema_pre_save
                  (let e1 := set_currentParticipants (currentParticipants e - 1)
                               (set_participants
                                  (pull (participants e) (u_id req_user)) e) in
                   if EventStatus_eqb (e_status e1) E_full
                   then set_e_status E_open e1 else e1)))
          s)).
Proof.
  intros Hev Hin Hcount Hvalid.
  apply wp_result. unfold leaveEvent. wp_prim. wp_prim. wp_prim. cbn beta iota.
  rewrite Hev, Hin. simpl negb. cbn iota. wp_prim.
  apply wp_Event_save; intros Hv.
  - wp_prim. wp_prim. cbn beta iota. wp_prim. auto.
  - exfalso.
    rewrite (@eventSchema_validate_count _ event) in Hv;
      try discriminate; try assumption;
      cbn zeta; destruct (EventStatus_eqb _ E_full); simpl; try reflexivity; lia.
Qed.

Lemma join_leave_event uid (event : Event) :
  e_status event = E_open ->
  currentParticipants event < maxParticipants event ->
  includes (participants event) uid = false ->
  includes (waitingList event) uid = false ->
  let e1 :=
    eventSchema_pre_save
      (set_currentParticipants (currentParticipants event + 1)
         (set_participants (push (participants event) uid) event)) in
  eventSchema_pre_save
    (let e2 := set_currentParticipants (currentParticipants e1 - 1)
                 (set_participants (pull (participants e1) uid) e1) in
     if EventStatus_eqb (e_status e2) E_full then set_e_status E_open e2 else e2)
  = event.
Proof.
  intros Hopen Hcap Hnew Hwait. destruct event as [i h d m c p st ps wl].
  simpl in *. subst st. unfold eventSchema_pre_save. simpl.
  destruct (c + 1 >=? m) eqn:Hge; simpl.
  - replace (c + 1 - 1 >=? m) with false
      by (symmetry; rewrite Z.geb_leb; apply Z.leb_gt; lia).
    simpl. rewrite (pull_push _ _ Hnew).
    replace (c + 1 - 1) with c by lia. reflexivity.
  - replace (c + 1 - 1 >=? m) with false
      by (symmetry; rewrite Z.geb_leb; apply Z.leb_gt; lia).
    simpl. rewrite (pull_push _ _ Hnew).
    replace (c + 1 - 1) with c by lia. reflexivity.
Qed.

(** X9.  Joining an event and leaving it again puts things back: for a
    user who was neither a participant nor on the waiting list, and did not
    have the event among the joined ones, the stored event (count, status,
    participants) and the stored user are what they were, and no booking
    was touched.  This is so too when the event's validation refuses the
    join (an event dated before the schema was loaded, say): then neither
    request writes. *)
Theorem join_then_leave_restores :
  forall (stripe : Stripe) (cur : string) (uid id : ObjectId) (s : Store)
         (user : User) (event : Event),
    find (fun u => Nat.eqb (u_id u) uid) (users s) = Some user ->
    Event_lookup s id = Some event ->
    e_status event = E_open ->
    currentParticipants event < maxParticipants event ->
    includes (participants event) uid = false ->
    includes (waitingList event) uid = false ->
    includes (joinedEvents user) id = false ->
    0 <= currentParticipants event ->
    Event_lookup (run stripe cur [OpJoinEvent uid id; OpLeaveEvent uid id] s) id
      = Some event
    /\ find (fun u => Nat.eqb (u_id u) uid)
         (users (run stripe cur [OpJoinEvent uid id; OpLeaveEvent uid id] s))
       = Some user
    /\ bookings (run stripe cur [OpJoinEvent uid id; OpLeaveEvent uid id] s)
       = bookings s.
Proof.
  intros stripe cur uid id s user event Hu Hev Hopen Hcap Hnew Hwait Hjoined Hc.
  assert (Huid : u_id user = uid)
    by (apply find_some in Hu; destruct Hu as [_ Hu]; now apply Nat.eqb_eq).
  pose proof (Event_lookup_id _ _ Hev) as Heid.
  subst uid.
  set (e0 := set_currentParticipants (currentParticipants event + 1)
               (set_participants (push (participants event) (u_id user)) event)).
  set (e1 := eventSchema_pre_save e0).
  set (user1 := set_joinedEvents (push (joinedEvents user) (e_id event)) user).
  cbn [run].
  destruct (eventSchema_validate (loadedAt s) e0) eqn:Hv0.
  - (* the join is saved *)
    assert (Hsaved : eventSchema_validate (loadedAt s)
                       (let e1 := if includes (waitingList event) (u_id user)
                                  then set_waitingList
                                         (pull (waitingList event) (u_id user)) event
                                  else event in
                        set_currentParticipants (currentParticipants e1 + 1)
                          (set_participants (push (participants e1) (u_id user)) e1))
                     = true)
      by (cbn zeta; rewrite Hwait; exact Hv0).
    assert (H1 : exists s1,
               snd (step stripe cur (OpJoinEvent (u_id user) id) s) = s1
               /\ Event_lookup s1 id = Some e1
               /\ find (fun u => Nat.eqb (u_id u) (u_id user)) (users s1) = Some user1
               /\ bookings s1 = bookings s
               /\ loadedAt s1 = loadedAt s).
    { eexists. split.
      - unfold step, respond, authenticate, bind, User_findById. rewrite Hu.
        rewrite (joinEvent_saved user id s Hev Hopen Hcap Hnew Hsaved). reflexivity.
      - split; [|split; [|split; reflexivity]].
        + unfold Event_lookup. simpl.
          rewrite find_update_by_id_gen
            by (intros d; rewrite e_id_pre_save; destruct (includes (waitingList d) _);
                reflexivity).
          fold (Event_lookup s id). rewrite Hev. simpl.
          rewrite Nat.eqb_refl, Hwait. reflexivity.
        + simpl. rewrite find_update_by_id_gen by reflexivity.
          rewrite Hu. simpl. rewrite Nat.eqb_refl. reflexivity. }
    destruct H1 as (s1 & -> & Hev1 & Hu1 & Hb1 & Hl1).
    assert (Hid1 : e_id e1 = e_id event) by (unfold e1; now rewrite e_id_pre_save).
    assert (Hc1 : currentParticipants e1 = currentParticipants event + 1).
    { unfold e1, e0, eventSchema_pre_save. simpl.
      destruct (_ >=? _); [reflexivity|]. destruct (_ && _); reflexivity. }
    assert (Hp1 : participants e1 = push (participants event) (u_id user)).
    { unfold e1, e0, eventSchema_pre_save. simpl.
      destruct (_ >=? _); [reflexivity|]. destruct (_ && _); reflexivity. }
    assert (Hv1 : eventSchema_validate (loadedAt s1) e1 = true).
    { rewrite Hl1. apply (@eventSchema_validate_count _ e0); try assumption; try lia;
        unfold e1, eventSchema_pre_save; simpl;
        (destruct (_ >=? _); [reflexivity|]; destruct (_ && _); reflexivity). }
    assert (Hin1 : includes (participants e1) (u_id user1) = true)
      by (rewrite Hp1; apply includes_push).
    assert (Hge1 : 1 <= currentParticipants e1) by lia.
    (* the second request *)
    assert (H2 : snd (step stripe cur (OpLeaveEvent (u_id user) id) s1)
                 = snd (leaveEvent user1 id s1)).
    { unfold step. rewrite snd_respond. unfold authenticate, bind, User_findById.
      rewrite Hu1. reflexivity. }
    rewrite H2, (leaveEvent_accepted user1 id s1 Hev1 Hin1 Hge1 Hv1). simpl snd.
    split; [|split].
    + unfold Event_lookup. simpl.
      rewrite find_update_by_id_gen
        by (intros d; rewrite e_id_pre_save; cbn zeta;
            destruct (EventStatus_eqb _ E_full); reflexivity).
      fold (Event_lookup s1 id). rewrite Hev1. simpl. rewrite Nat.eqb_refl.
      f_equal. exact (join_leave_event (u_id user) event Hopen Hcap Hnew Hwait).
    + simpl. rewrite find_update_by_id_gen by reflexivity.
      rewrite Hu1. simpl. rewrite Nat.eqb_refl. unfold user1. simpl.
      rewrite Heid. rewrite (pull_push _ _ Hjoined). now destruct user.
    + simpl. exact Hb1.
  - (* the join is refused: neither request writes *)
    assert (Hrefused : eventSchema_validate (loadedAt s)
                         (let e1 := if includes (waitingList event) (u_id user)
                                    then set_waitingList
                                           (pull (waitingList event) (u_id user)) event
                                    else event in
                          set_currentParticipants (currentParticipants e1 + 1)
                            (set_participants (push (participants e1) (u_id user)) e1))
                       = false)
      by (cbn zeta; rewrite Hwait; exact Hv0).
    assert (H1 : snd (step stripe cur (OpJoinEvent (u_id user) id) s) = s).
    { unfold step. rewrite snd_respond. unfold authenticate, bind, User_findById.
      rewrite Hu. now rewrite (joinEvent_refused user id s Hev Hopen Hcap Hnew Hrefused). }
    rewrite H1.
    assert (H2 : snd (step stripe cur (OpLeaveEvent (u_id user) id) s) = s).
    { unfold step. rewrite snd_respond. unfold authenticate, bind, User_findById.
      rewrite Hu. apply (wp_snd _ (fun s' => s' = s)). unfold leaveEvent.
      wp_prim. wp_prim. wp_prim. cbn beta iota. rewrite Hev, Hnew.
      simpl negb. cbn iota. wp_prim. reflexivity. }
    rewrite H2. auto.
Qed.

Lemma join_then_leave_restores_witness :
  Event_lookup
    (run Fixtures.gateway "usd" [OpJoinEvent 20 1; OpLeaveEvent 20 1] Fixtures.store_open) 1
    = Some (Fixtures.paid_event 5 0 E_open [])
  /\ find (fun u => Nat.eqb (u_id u) 20)
       (users (run Fixtures.gateway "usd" [OpJoinEvent 20 1; OpLeaveEvent 20 1]
                 Fixtures.store_open))
     = Some Fixtures.alice
  /\ bookings (run Fixtures.gateway "usd" [OpJoinEvent 20 1; OpLeaveEvent 20 1]
                 Fixtures.store_open)
     = bookings Fixtures.store_open.
Proof.
  apply (join_then_leave_restores Fixtures.gateway "usd" 20 1 Fixtures.store_open);
    reflexivity.
Defined.

(** ** Cancelling and deleting an event *)

Lemma cancelled_bookings_not_counted eid l :
  filter (fun b => Nat.eqb (eventId b) eid
                   && negb (BookingStatus_eqb (status b) B_cancelled))
         (map (fun b => if Nat.eqb (eventId b) eid
                           && negb (BookingStatus_eqb (status b) B_cancelled)
                        then set_status B_cancelled b else b) l)
  = [].
Proof.
  induction l as [|b l IH]; simpl; [reflexivity|].
  destruct (Nat.eqb (eventId b) eid) eqn:He; simpl.
  - destruct (BookingStatus_eqb (status b) B_cancelled) eqn:Hs; simpl.
    + rewrite He, Hs. simpl. exact IH.
    + rewrite He. simpl. exact IH.
  - rewrite He. simpl. exact IH.
Qed.

Lemma other_bookings_still_counted eid eid' l :
  eid' <> eid ->
  filter (fun b => Nat.eqb (eventId b) eid'
                   && negb (BookingStatus_eqb (status b) B_cancelled))
         (map (fun b => if Nat.eqb (eventId b) eid
                           && negb (BookingStatus_eqb (status b) B_cancelled)
                        then set_status B_cancelled b else b) l)
  = filter (fun b => Nat.eqb (eventId b) eid'
                     && negb (BookingStatus_eqb (status b) B_cancelled)) l.
Proof.
  intros Hne. induction l as [|b l IH]; simpl; [reflexivity|].
  destruct (Nat.eqb (eventId b) eid) eqn:He; simpl.
  - apply Nat.eqb_eq in He.
    assert (Hn : Nat.eqb (eventId b) eid' = false) by (apply Nat.eqb_neq; congruence).
    destruct (negb (BookingStatus_eqb (status b) B_cancelled)); simpl;
      rewrite Hn; simpl; exact IH.
  - rewrite IH. reflexivity.
Qed.

(** The store [cancelEvent] leaves when it resolves. *)
Lemma cancelEvent_accepted eid hid s event :
  Event_lookup s eid = Some event ->
  e_hostId event = hid ->
  e_status event <> E_cancelled ->
  eventSchema_validate (loadedAt s) event = true ->
  cancelEvent eid hid s
  = (Ok tt,
     with_bookings
       (map (fun b => if Nat.eqb (eventId b) eid
                         && negb (BookingStatus_eqb (status b) B_cancelled)
                      then set_status B_cancelled b else b))
       (with_events
          (update_by_id e_id (e_id event)
             (fun e => eventSchema_pre_save (set_e_status E_cancelled e))) s)).
Proof.
  intros Hev Hhost Hst Hvalid.
  apply wp_result. unfold cancelEvent. wp_prim. wp_prim. cbn beta iota.
  rewrite Hev, Hhost, Nat.eqb_refl. simpl negb. cbn iota.
  replace (EventStatus_eqb (e_status event) E_cancelled) with false
    by (symmetry; now apply EventStatus_eqb_neq).
  wp_prim. apply wp_Event_save; intros Hv.
  - wp_prim. auto.
  - exfalso. rewrite (@eventSchema_validate_count _ event) in Hv;
      try discriminate; try assumption; try reflexivity.
    simpl. exact (@eventSchema_validate_nonneg _ _ Hvalid).
Qed.

(** X10.  The host's [cancelEvent] of an event that is not cancelled and
    passes the schema's validators (the [date] not before the time the
    schema was loaded among them) resolves; no non-cancelled booking of the
    event is left and the bookings of other events count as before; but the
    event itself ends 'cancelled' only if it had a free place: for a
    sold-out event the [pre('save')] hook sets the status back to 'full'. *)
Theorem cancelEvent_cancels_bookings_not_sold_out_event :
  forall (eid hid : ObjectId) (s : Store) (event : Event),
    Event_lookup s eid = Some event ->
    e_hostId event = hid ->
    e_status event <> E_cancelled ->
    eventSchema_validate (loadedAt s) event = true ->
    fst (cancelEvent eid hid s) = Ok tt
    /\ booked_count (snd (cancelEvent eid hid s)) eid = 0
    /\ (forall eid', eid' <> eid ->
          booked_count (snd (cancelEvent eid hid s)) eid' = booked_count s eid')
    /\ option_map e_status (Event_lookup (snd (cancelEvent eid hid s)) eid)
       = Some (if currentParticipants event >=? maxParticipants event
               then E_full else E_cancelled).
Proof.
  intros eid hid s event Hev Hhost Hst Hvalid.
  rewrite (cancelEvent_accepted eid s Hev Hhost Hst Hvalid).
  split; [reflexivity|]. split; [|split].
  - unfold booked_count. simpl. now rewrite cancelled_bookings_not_counted.
  - intros eid' Hne. unfold booked_count. simpl.
    now rewrite other_bookings_still_counted.
  - unfold Event_lookup. simpl.
    rewrite find_update_by_id_gen by (intros d; now rewrite e_id_pre_save).
    fold (Event_lookup s eid). rewrite Hev. simpl. rewrite Nat.eqb_refl.
    unfold eventSchema_pre_save. simpl.
    destruct (currentParticipants event >=? maxParticipants event); reflexivity.
Qed.

Lemma cancelEvent_cancels_bookings_not_sold_out_event_witness :
  fst (cancelEvent 1 10 Accounts_Fixtures.store_sold_out) = Ok tt
  /\ booked_count (snd (cancelEvent 1 10 Accounts_Fixtures.store_sold_out)) 1 = 0
  /\ (forall eid', eid' <> 1%nat ->
        booked_count (snd (cancelEvent 1 10 Accounts_Fixtures.store_sold_out)) eid'
        = booked_count Accounts_Fixtures.store_sold_out eid')
  /\ option_map e_status
       (Event_lookup (snd (cancelEvent 1 10 Accounts_Fixtures.store_sold_out)) 1)
     = Some (if 2 >=? 2 then E_full else E_cancelled).
Proof.
  apply (cancelEvent_cancels_bookings_not_sold_out_event 1
           Accounts_Fixtures.store_sold_out
           (event := Fixtures.paid_event 2 2 E_full [20%nat; 21%nat])).
  - reflexivity.
  - reflexivity.
  - discriminate.
  - reflexivity.
Defined.

(** X11.  [deleteEvent] never removes an event that still has a
    non-cancelled booking: it throws and leaves the store as it was, whoever
    calls it. *)
Theorem deleteEvent_refused_with_active_bookings :
  forall (deleteEventImages : Event -> bool) (eid hid : ObjectId) (s : Store),
    booked_count s eid > 0 ->
    snd (deleteEvent deleteEventImages eid hid s) = s
    /\ exists msg, fst (deleteEvent deleteEventImages eid hid s) = Throw msg.
Proof.
  intros deleteEventImages eid hid s Hactive.
  change (wp (deleteEvent deleteEventImages eid hid)
            (fun r s' => s' = s /\ exists msg, r = Throw msg) s).
  unfold deleteEvent. wp_all; try fold (booked_count s eid) in *; zguards; eauto.
  all: exfalso; lia.
Qed.

Lemma deleteEvent_refused_with_active_bookings_witness :
  snd (deleteEvent (fun _ => true) 1 10 Accounts_Fixtures.store_sold_out)
    = Accounts_Fixtures.store_sold_out
  /\ exists msg,
       fst (deleteEvent (fun _ => true) 1 10 Accounts_Fixtures.store_sold_out) = Throw msg.
Proof.
  apply deleteEvent_refused_with_active_bookings. reflexivity.
Defined.

Lemma e_hostId_pre_save e : e_hostId (eventSchema_pre_save e) = e_hostId e.
Proof.
  unfold eventSchema_pre_save.
  destruct (currentParticipants e >=? maxParticipants e); [reflexivity|].
  destruct (EventStatus_eqb (e_status e) E_full && _); reflexivity.
Qed.

(** A [cancelEvent] that resolved found the caller's event and wrote the
    event and its bookings. *)
Lemma cancelEvent_resolved eid hid s :
  fst (cancelEvent eid hid s) = Ok tt ->
  exists event,
    Event_lookup s eid = Some event
    /\ e_hostId event = hid
    /\ snd (cancelEvent eid hid s)
       = with_bookings
           (map (fun b => if Nat.eqb (eventId b) eid
                             && negb (BookingStatus_eqb (status b) B_cancelled)
                          then set_status B_cancelled b else b))
           (with_events
              (update_by_id e_id (e_id event)
                 (fun e => eventSchema_pre_save (set_e_status E_cancelled e))) s).
Proof.
  change (wp (cancelEvent eid hid)
            (fun r s' =>
               r = Ok tt ->
               exists event,
                 Event_lookup s eid = Some event
                 /\ e_hostId event = hid
                 /\ s' = with_bookings
                           (map (fun b => if Nat.eqb (eventId b) eid
                                             && negb (BookingStatus_eqb (status b)
                                                        B_cancelled)
                                          then set_status B_cancelled b else b))
                           (with_events
                              (update_by_id e_id (e_id event)
                                 (fun e => eventSchema_pre_save
                                             (set_e_status E_cancelled e))) s)) s).
  unfold cancelEvent. wp_all; intros Hr; try discriminate Hr.
  guards.
  match goal with e : Event |- _ => exists e end.
  repeat split; try reflexivity. now apply Nat.eqb_eq.
Qed.

(** X12.  After a [cancelEvent] that resolved, [deleteEvent] by the same
    host goes through (the image deletion permitting): the bookings it
    counts are all cancelled, and the event is no longer stored. *)
Theorem cancel_then_delete_removes_event :
  forall (deleteEventImages : Event -> bool) (eid hid : ObjectId) (s : Store),
    fst (cancelEvent eid hid s) = Ok tt ->
    (forall e, Event_lookup (snd (cancelEvent eid hid s)) eid = Some e ->
               deleteEventImages e = true) ->
    fst (deleteEvent deleteEventImages eid hid (snd (cancelEvent eid hid s))) = Ok tt
    /\ Event_lookup (snd (deleteEvent deleteEventImages eid hid
                            (snd (cancelEvent eid hid s)))) eid = None.
Proof.
  intros deleteEventImages eid hid s Hok Himg.
  destruct (cancelEvent_resolved eid hid s Hok) as (event & Hev & Hhost & Hs1).
  assert (Hcount : booked_count (snd (cancelEvent eid hid s)) eid = 0).
  { rewrite Hs1. unfold booked_count. simpl.
    now rewrite cancelled_bookings_not_counted. }
  assert (Hev1 : Event_lookup (snd (cancelEvent eid hid s)) eid
                 = Some (eventSchema_pre_save (set_e_status E_cancelled event))).
  { rewrite Hs1. unfold Event_lookup. simpl.
    rewrite find_update_by_id_gen by (intros d; now rewrite e_id_pre_save).
    fold (Event_lookup s eid). rewrite Hev. simpl. now rewrite Nat.eqb_refl. }
  specialize (Himg _ Hev1).
  set (s1 := snd (cancelEvent eid hid s)) in *.
  assert (Hrun : deleteEvent deleteEventImages eid hid s1
                 = (Ok tt, with_events (filter (fun e => negb (Nat.eqb (e_id e) eid))) s1)).
  { apply wp_result. unfold deleteEvent. wp_prim. wp_prim. cbn beta iota.
    rewrite Hev1.
    rewrite e_hostId_pre_save. simpl e_hostId. rewrite Hhost.
    rewrite Nat.eqb_refl. simpl negb. cbn iota.
    wp_prim. wp_prim. cbn beta iota. fold (booked_count s1 eid). rewrite Hcount.
    simpl (0 >? 0). cbn iota. rewrite Himg. simpl negb. cbn iota.
    apply wp_Event_findByIdAndDelete. auto. }
  rewrite Hrun. split; [reflexivity|].
  unfold Event_lookup. simpl.
  destruct (find (fun e => Nat.eqb (e_id e) eid)
              (filter (fun e => negb (Nat.eqb (e_id e) eid)) (events s1)))
    as [e|] eqn:Hf; [|reflexivity].
  apply find_some in Hf. destruct Hf as [Hin He].
  apply filter_In in Hin. destruct Hin as [_ Hn]. rewrite He in Hn. discriminate Hn.
Qed.

Lemma cancel_then_delete_removes_event_witness :
  fst (deleteEvent (fun _ => true) 1 10
         (snd (cancelEvent 1 10 Accounts_Fixtures.store_sold_out))) = Ok tt
  /\ Event_lookup
       (snd (deleteEvent (fun _ => true) 1 10
               (snd (cancelEvent 1 10 Accounts_Fixtures.store_sold_out)))) 1 = None.
Proof.
  apply (@cancel_then_delete_removes_event (fun _ => true) 1%nat 10%nat
           Accounts_Fixtures.store_sold_out).
  - reflexivity.
  - intros e _. reflexivity.
Defined.

(** X13.  What [EventService.getEventById] reports as [availableSpots]
    is what [createPaymentIntent] goes by: for an open event not yet past,
    the intent is refused with 'Not enough spots available' exactly when the
    quantity exceeds the available spots; and the [currentParticipants] the
    view shows is the number of non-cancelled bookings, not the stored
    counter. *)
Theorem availableSpots_decide_payment_intent :
  forall (stripe : Stripe) (cur : string) (now : Z) (eid uid : ObjectId) (q : Z)
         (s : Store) (event : Event),
    Event_lookup s eid = Some event ->
    e_status event = E_open ->
    now <= date event ->
    exists view,
      getEventById eid s = (Ok view, s)
      /\ currentParticipants (view_event view) = booked_count s eid
      /\ availableSpots view = maxParticipants event - booked_count s eid
      /\ (fst (createPaymentIntent stripe cur now eid uid q s)
            = Throw "Not enough spots available"
          <-> q > availableSpots view).
Proof.
  intros stripe cur now eid uid q s event Hev Hopen Hdate.
  eexists. split.
  - apply wp_result. unfold getEventById. wp_prim. wp_prim. cbn beta iota.
    rewrite Hev. wp_prim. wp_prim. cbn beta iota. wp_prim. split; reflexivity.
  - simpl. fold (booked_count s eid). repeat split.
    + rewrite createPaymentIntent_full_iff.
      intros (ev & Hev' & _ & _ & Hfull). assert (ev = event) by congruence. subst ev. lia.
    + intros Hq. apply createPaymentIntent_full_iff.
      exists event. repeat split; auto. lia.
Qed.

Lemma availableSpots_decide_payment_intent_witness :
  exists view,
    getEventById 1 Fixtures.store_joined = (Ok view, Fixtures.store_joined)
    /\ currentParticipants (view_event view) = booked_count Fixtures.store_joined 1
    /\ availableSpots view = 2 - booked_count Fixtures.store_joined 1
    /\ (fst (createPaymentIntent Fixtures.gateway "usd" 0 1 20 2 Fixtures.store_joined)
          = Throw "Not enough spots available"
        <-> 2 > availableSpots view).
Proof.
  apply (@availableSpots_decide_payment_intent Fixtures.gateway "usd" 0 1%nat 20%nat 2
           Fixtures.store_joined (Fixtures.paid_event 2 1 E_open [21%nat])).
  - reflexivity.
  - reflexivity.
  - simpl. lia.
Defined.

(** ** What no operation changes *)

Lemma map_update_by_id_keeping {D K : Type} (key : D -> K) (get_id : D -> ObjectId) id
    (f : D -> D) l :
  (forall d, key (f d) = key d) ->
  map key (update_by_id get_id id f l) = map key l.
Proof.
  intros Hf. unfold update_by_id. rewrite map_map. apply map_ext.
  intros d. destruct (Nat.eqb (get_id d) id); [apply Hf | reflexivity].
Qed.

Lemma booking_terms_update_paths st sr nt b :
  booking_terms (update_paths st sr nt b) = booking_terms b.
Proof.
  unfold update_paths.
  destruct st as [v|]; [destruct (parse_BookingStatus v)|];
    destruct sr, nt; reflexivity.
Qed.

Lemma event_terms_pre_save e : event_terms (eventSchema_pre_save e) = event_terms e.
Proof.
  unfold eventSchema_pre_save.
  destruct (currentParticipants e >=? maxParticipants e); [reflexivity|].
  destruct (EventStatus_eqb (e_status e) E_full && _); reflexivity.
Qed.

Lemma step_keeps_booking_terms stripe cur op s :
  map booking_terms (bookings (snd (step stripe cur op s))) = map booking_terms (bookings s).
Proof.
  destruct op; simpl step; rewrite ?snd_respond, ?snd_settle;
    apply (wp_snd _ (fun s' => map booking_terms (bookings s')
                               = map booking_terms (bookings s)));
    unfold_handlers; try destruct event; wp_all; simpl; try reflexivity.
  all: try (apply map_update_by_id_keeping; intros d;
            first [ apply booking_terms_update_paths | reflexivity ]).
  all: try (destruct (paymentIntents_create _ _ _ _); wp_all; simpl; reflexivity).
  rewrite map_map. apply map_ext. intros d. destruct (_ && _); reflexivity.
Qed.

(** X14.  The booking collection never grows or shrinks, and no
    operation changes whom a booking is for, which event and host it
    concerns, its amount or its quantity: after any sequence of requests,
    payment-service calls and webhooks the stored bookings carry the same
    ids and terms, in the same order.  (The three paths that would insert
    a booking build a document the schema refuses.) *)
Theorem booking_terms_never_change :
  forall (stripe : Stripe) (cur : string) (ops : list Op) (s : Store),
    map booking_terms (bookings (run stripe cur ops s)) = map booking_terms (bookings s).
Proof.
  intros stripe cur ops. induction ops as [|op ops IH]; simpl; intros s.
  - reflexivity.
  - rewrite IH. apply step_keeps_booking_terms.
Qed.

Lemma step_keeps_event_terms stripe cur op s :
  map event_terms (events (snd (step stripe cur op s))) = map event_terms (events s).
Proof.
  destruct op; simpl step; rewrite ?snd_respond, ?snd_settle;
    apply (wp_snd _ (fun s' => map event_terms (events s') = map event_terms (events s)));
    unfold_handlers; try destruct event; wp_all; simpl; try reflexivity.
  all: try (apply map_update_by_id_keeping; intros d;
            rewrite ?event_terms_pre_save;
            repeat match goal with
                   | |- context [if ?c then _ else _] => destruct c
                   end; reflexivity).
  all: try (destruct (paymentIntents_create _ _ _ _); wp_all; simpl; reflexivity).
Qed.

(** X15.  None of the operations (booking, join, leave and cancel-event
    requests, payment-service calls, webhooks) creates or removes an event
    or changes its host, date, capacity or price: they write only the
    participant count, the participant and waiting lists and the status. *)
Theorem event_terms_never_change :
  forall (stripe : Stripe) (cur : string) (ops : list Op) (s : Store),
    map event_terms (events (run stripe cur ops s)) = map event_terms (events s).
Proof.
  intros stripe cur ops. induction ops as [|op ops IH]; simpl; intros s.
  - reflexivity.
  - rewrite IH. apply step_keeps_event_terms.
Qed.

Lemma step_keeps_user_rights stripe cur op s :
  map user_rights (users (snd (step stripe cur op s))) = map user_rights (users s).
Proof.
  destruct op; simpl step; rewrite ?snd_respond, ?snd_settle;
    apply (wp_snd _ (fun s' => map user_rights (users s') = map user_rights (users s)));
    unfold_handlers; try destruct event; wp_all; simpl; try reflexivity.
  all: try (apply map_update_by_id_keeping; intros d; reflexivity).
  all: try (destruct (paymentIntents_create _ _ _ _); wp_all; simpl; reflexivity).
Qed.

(** X16.  No operation of the booking engine changes a user's role, nor
    adds or removes a user: the rights the access checks go by stay what
    they were. *)
Theorem user_rights_never_change :
  forall (stripe : Stripe) (cur : string) (ops : list Op) (s : Store),
    map user_rights (users (run stripe cur ops s)) = map user_rights (users s).
Proof.
  intros stripe cur ops. induction ops as [|op ops IH]; simpl; intros s.
  - reflexivity.
  - rewrite IH. apply step_keeps_user_rights.
Qed.

(** ** Access to a booking *)

(** X17.  A user who is neither the owner nor the host of a stored
    booking, nor an admin, gets 403 from [updateBooking], [cancelBooking]
    and [confirmBooking] alike, whatever the body, and the store is left as
    it was. *)
Theorem strangers_are_refused :
  forall (req_user : User) (id : ObjectId) (st sr nt : option string)
         (s : Store) (booking : Booking),
    Booking_lookup s id = Some booking ->
    is_owner_host_or_admin booking req_user = false ->
    updateBooking req_user id st sr nt s = (Ok (errorResponse "Access denied" 403), s)
    /\ cancelBooking req_user id s = (Ok (errorResponse "Access denied" 403), s)
    /\ confirmBooking req_user id s
       = (Ok (errorResponse "Access denied. Only hosts can confirm bookings" 403), s).
Proof.
  intros req_user id st sr nt s booking Hl Hacc.
  assert (Hhost : is_host_or_admin booking req_user = false).
  { unfold is_owner_host_or_admin in Hacc. unfold is_host_or_admin.
    destruct (Nat.eqb (userId booking) (u_id req_user)); [discriminate Hacc|].
    exact Hacc. }
  repeat split; apply wp_result.
  - unfold updateBooking. wp_prim. wp_prim. wp_prim. cbn beta iota.
    rewrite Hl, Hacc. simpl negb. cbn iota. wp_prim. auto.
  - unfold cancelBooking. wp_prim. wp_prim. wp_prim. cbn beta iota.
    rewrite Hl, Hacc. simpl negb. cbn iota. wp_prim. auto.
  - unfold confirmBooking. wp_prim. wp_prim. wp_prim. cbn beta iota.
    rewrite Hl, Hhost. simpl negb. cbn iota. wp_prim. auto.
Qed.

Lemma strangers_are_refused_witness :
  updateBooking Fixtures.bob 2 (Some "cancelled") None None
    (Fixtures.store_booked B_confirmed 1)
    = (Ok (errorResponse "Access denied" 403), Fixtures.store_booked B_confirmed 1)
  /\ cancelBooking Fixtures.bob 2 (Fixtures.store_booked B_confirmed 1)
     = (Ok (errorResponse "Access denied" 403), Fixtures.store_booked B_confirmed 1)
  /\ confirmBooking Fixtures.bob 2 (Fixtures.store_booked B_confirmed 1)
     = (Ok (errorResponse "Access denied. Only hosts can confirm bookings" 403),
        Fixtures.store_booked B_confirmed 1).
Proof.
  apply (@strangers_are_refused Fixtures.bob 2%nat (Some "cancelled") None None
           (Fixtures.store_booked B_confirmed 1) (Fixtures.alice_booking B_confirmed 1)).
  - reflexivity.
  - reflexivity.
Defined.

(** ** Cancelling and refunding *)

(** The booking a lookup finds after the document with its id was
    written. *)
Lemma Booking_lookup_written (f : Booking -> Booking) s s' id booking :
  (forall b, b_id (f b) = b_id b) ->
  Booking_lookup s id = Some booking ->
  bookings s' = update_by_id b_id (b_id booking) f (bookings s) ->
  Booking_lookup s' id = Some (f booking).
Proof.
  intros Hf Hl Hb. unfold Booking_lookup. rewrite Hb.
  rewrite find_update_by_id by exact Hf.
  fold (Booking_lookup s id). rewrite Hl. simpl. now rewrite Nat.eqb_refl.
Qed.

Lemma processRefund_of_cancelled stripe data s booking :
  Booking_lookup s (rd_bookingId data) = Some booking ->
  status booking = B_cancelled ->
  processRefund stripe data s = (Throw "Booking already cancelled", s).
Proof.
  intros Hl Hs. apply wp_result. unfold processRefund. wp_prim. wp_prim.
  cbn beta iota. rewrite Hl, Hs. simpl. wp_prim. auto.
Qed.

(** X18.  A refund is made once: after a [processRefund] that resolved,
    every further [processRefund] for the same booking, whatever amount and
    reason it names, throws 'Booking already cancelled' before it reaches
    the gateway and leaves the store as it is. *)
Theorem refund_is_made_once :
  forall (stripe : Stripe) (data data' : RefundData) (s : Store),
    fst (processRefund stripe data s) = Ok tt ->
    rd_bookingId data' = rd_bookingId data ->
    processRefund stripe data' (snd (processRefund stripe data s))
    = (Throw "Booking already cancelled", snd (processRefund stripe data s)).
Proof.
  intros stripe data data' s Hok Hid.
  revert Hok.
  change (wp (processRefund stripe data)
            (fun r s' => r = Ok tt ->
                         processRefund stripe data' s'
                         = (Throw "Booking already cancelled", s')) s).
  unfold processRefund at 1. wp_all; intros Hr; try discriminate Hr.
  match goal with
  | Hl : Booking_lookup ?s0 _ = Some ?b
    |- processRefund _ _ (with_events _ (with_bookings (update_by_id _ _ ?f) _)) = _ =>
      apply (@processRefund_of_cancelled _ _ _ (f b));
        [ rewrite Hid;
          refine (@Booking_lookup_written f s0 _ _ b (fun _ => eq_refl) Hl _);
          reflexivity
        | reflexivity ]
  end.
Qed.

Lemma refund_is_made_once_witness :
  processRefund Fixtures.gateway Fixtures.refund_in_full
    (snd (processRefund Fixtures.gateway Fixtures.refund_of_5
            (Fixtures.store_booked B_confirmed 1)))
  = (Throw "Booking already cancelled",
     snd (processRefund Fixtures.gateway Fixtures.refund_of_5
            (Fixtures.store_booked B_confirmed 1))).
Proof.
  apply refund_is_made_once.
  - reflexivity.
  - reflexivity.
Defined.

(** X19.  [cancelBooking] returns no money and closes the way to a
    refund: once it has answered 'Booking cancelled successfully', the
    booking's payment status is what it was, and [processRefund] for that
    booking throws 'Booking already cancelled' and changes nothing. *)
Theorem cancelled_booking_gets_no_refund :
  forall (stripe : Stripe) (req_user : User) (id : ObjectId) (data : RefundData)
         (s : Store),
    fst (cancelBooking req_user id s)
      = Ok (successResponse "Booking cancelled successfully" None) ->
    rd_bookingId data = id ->
    option_map paymentStatus (Booking_lookup (snd (cancelBooking req_user id s)) id)
      = option_map paymentStatus (Booking_lookup s id)
    /\ processRefund stripe data (snd (cancelBooking req_user id s))
       = (Throw "Booking already cancelled", snd (cancelBooking req_user id s)).
Proof.
  intros stripe req_user id data s Hok Hid. subst id.
  revert Hok.
  change (wp (cancelBooking req_user (rd_bookingId data))
            (fun r s' =>
               r = Ok (successResponse "Booking cancelled successfully" None) ->
               option_map paymentStatus (Booking_lookup s' (rd_bookingId data))
                 = option_map paymentStatus (Booking_lookup s (rd_bookingId data))
               /\ processRefund stripe data s'
                  = (Throw "Booking already cancelled", s')) s).
  unfold cancelBooking. wp_all; intros Hr; try discriminate Hr.
  all: match goal with
       | Hl : Booking_lookup ?s0 _ = Some ?b |- _ =>
           pose proof (fun s' (E : bookings s'
                                    = update_by_id b_id (b_id b) (set_status B_cancelled)
                                        (bookings s0)) =>
                         @Booking_lookup_written (set_status B_cancelled) s0 s' _ b
                           (fun _ => eq_refl) Hl E) as Hw
       end.
  all: split;
    [ erewrite Hw by reflexivity; reflexivity
    | eapply processRefund_of_cancelled; [apply Hw; reflexivity | reflexivity] ].
Qed.

Lemma cancelled_booking_gets_no_refund_witness :
  option_map paymentStatus
    (Booking_lookup (snd (cancelBooking Fixtures.alice 2
                            (Fixtures.store_booked B_confirmed 1))) 2)
    = option_map paymentStatus (Booking_lookup (Fixtures.store_booked B_confirmed 1) 2)
  /\ processRefund Fixtures.gateway Fixtures.refund_in_full
       (snd (cancelBooking Fixtures.alice 2 (Fixtures.store_booked B_confirmed 1)))
     = (Throw "Booking already cancelled",
        snd (cancelBooking Fixtures.alice 2 (Fixtures.store_booked B_confirmed 1))).
Proof.
  apply cancelled_booking_gets_no_refund.
  - reflexivity.
  - reflexivity.
Defined.

(** ** The participant count and the booking handlers *)

Lemma status_not_validated v b :
  bookingSchema_validate (set_status v b) = bookingSchema_validate b.
Proof. reflexivity. Qed.

(** X20.  A confirmed booking whose event counts no participant cannot
    be cancelled: [cancelBooking] decrements the count first, the event's
    validation refuses the negative count, and the handler answers 500 with
    the booking still confirmed and the store untouched. *)
Theorem uncounted_booking_cannot_be_cancelled :
  forall (req_user : User) (id : ObjectId) (s : Store) (booking : Booking)
         (event : Event),
    Booking_lookup s id = Some booking ->
    is_owner_host_or_admin booking req_user = true ->
    status booking = B_confirmed ->
    Event_lookup s (eventId booking) = Some event ->
    currentParticipants event <= 0 ->
    cancelBooking req_user id s = (Ok (errorResponse ValidationError_Event 500), s).
Proof.
  intros req_user id s booking event Hl Hacc Hst Hev Hcount.
  apply wp_result. unfold cancelBooking.
  wp_prim. wp_prim. wp_prim. cbn beta iota. rewrite Hl, Hacc, Hst.
  simpl. wp_prim. wp_prim. wp_prim. wp_prim. cbn beta iota. rewrite Hev.
  apply wp_Event_save; intros Hv.
  - exfalso. apply eventSchema_validate_nonneg in Hv.
    destruct (EventStatus_eqb _ E_full); simpl in Hv; lia.
  - wp_prim. auto.
Qed.

Lemma uncounted_booking_cannot_be_cancelled_witness :
  cancelBooking Fixtures.alice 2
    (run Fixtures.gateway "usd" [OpUpdateBooking 10 2 (Some "confirmed") None None]
       Accounts_Fixtures.store_pending)
  = (Ok (errorResponse ValidationError_Event 500),
     run Fixtures.gateway "usd" [OpUpdateBooking 10 2 (Some "confirmed") None None]
       Accounts_Fixtures.store_pending).
Proof.
  apply (@uncounted_booking_cannot_be_cancelled Fixtures.alice 2%nat
           (run Fixtures.gateway "usd" [OpUpdateBooking 10 2 (Some "confirmed") None None]
              Accounts_Fixtures.store_pending)
           (Fixtures.alice_booking B_confirmed 1)
           (Fixtures.paid_event 5 0 E_open [])).
  - reflexivity.
  - reflexivity.
  - reflexivity.
  - reflexivity.
  - simpl. lia.
Defined.




(** ** Publishing *)

(** X22.  [publishEvent] resolves only for a draft event of the calling
    host, and then writes nothing but that event's status, which the
    [pre('save')] hook sets by the count: 'open' below the maximum, 'full'
    at it.  Bookings and users are left as they were. *)
Theorem publishEvent_only_opens_own_draft :
  forall (eid hid : ObjectId) (s : Store),
    fst (publishEvent eid hid s) = Ok tt ->
    exists event,
      Event_lookup s eid = Some event
      /\ e_hostId event = hid
      /\ e_status event = E_draft
      /\ bookings (snd (publishEvent eid hid s)) = bookings s
      /\ users (snd (publishEvent eid hid s)) = users s
      /\ option_map e_status (Event_lookup (snd (publishEvent eid hid s)) eid)
         = Some (if currentParticipants event >=? maxParticipants event
                 then E_full else E_open).
Proof.
  intros eid hid s.
  change (wp (publishEvent eid hid)
            (fun r s' =>
               r = Ok tt ->
               exists event,
                 Event_lookup s eid = Some event
                 /\ e_hostId event = hid
                 /\ e_status event = E_draft
                 /\ bookings s' = bookings s
                 /\ users s' = users s
                 /\ option_map e_status (Event_lookup s' eid)
                    = Some (if currentParticipants event >=? maxParticipants event
                            then E_full else E_open)) s).
  unfold publishEvent. wp_all; intros Hr; try discriminate Hr.
  guards.
  match goal with
  | Hev : Event_lookup _ _ = Some ?e |- _ =>
      exists e; pose proof (Event_lookup_id _ _ Hev) as Hid
  end.
  repeat split; try assumption; try reflexivity.
  - now apply Nat.eqb_eq.
  - unfold Event_lookup. simpl.
    rewrite find_update_by_id_gen by (intros d; now rewrite e_id_pre_save).
    match goal with
    | Hev : Event_lookup _ _ = Some ?e |- _ =>
        unfold Event_lookup in Hev; rewrite Hev
    end.
    simpl. rewrite Hid, Nat.eqb_refl.
    unfold eventSchema_pre_save. simpl.
    destruct (_ >=? _); reflexivity.
Qed.

Lemma publishEvent_only_opens_own_draft_witness :
  exists event,
    Event_lookup Accounts_Fixtures.store_draft 1 = Some event
    /\ e_hostId event = 10%nat
    /\ e_status event = E_draft
    /\ bookings (snd (publishEvent 1 10 Accounts_Fixtures.store_draft))
       = bookings Accounts_Fixtures.store_draft
    /\ users (snd (publishEvent 1 10 Accounts_Fixtures.store_draft))
       = users Accounts_Fixtures.store_draft
    /\ option_map e_status
         (Event_lookup (snd (publishEvent 1 10 Accounts_Fixtures.store_draft)) 1)
       = Some (if currentParticipants event >=? maxParticipants event
               then E_full else E_open).
Proof.
  apply publishEvent_only_opens_own_draft. reflexivity.
Defined.

(** ** Payment intents and places *)

(** X23.  Creating a payment intent reserves nothing: the store is left
    as it was, so the capacity verdict for the next caller is the one the
    first caller got, however many intents have been issued in between. *)
Theorem payment_intent_reserves_nothing :
  forall (stripe : Stripe) (cur : string) (now : Z) (eid uid uid' : ObjectId) (q : Z)
         (s : Store),
    snd (createPaymentIntent stripe cur now eid uid q s) = s
    /\ (fst (createPaymentIntent stripe cur now eid uid' q
               (snd (createPaymentIntent stripe cur now eid uid q s)))
          = Throw "Not enough spots available"
        <-> fst (createPaymentIntent stripe cur now eid uid q s)
              = Throw "Not enough spots available").
Proof.
  intros stripe cur now eid uid uid' q s.
  assert (Hsame : snd (createPaymentIntent stripe cur now eid uid q s) = s).
  { apply (wp_snd _ (fun s' => s' = s)). unfold createPaymentIntent.
    wp_all; reflexivity. }
  split; [exact Hsame|].
  rewrite Hsame. rewrite !createPaymentIntent_full_iff. reflexivity.
Qed.

(** ** Authentication *)

(** X24.  Every HTTP request of the booking engine passes through
    [authenticate]: made in the name of a user that is not stored, it is
    answered 404 'User not found' and no handler runs, so the store is left
    as it was. *)
Theorem unknown_user_reaches_no_handler :
  forall (stripe : Stripe) (cur : string) (op : Op) (uid : ObjectId) (s : Store),
    requester op = Some uid ->
    find (fun u => Nat.eqb (u_id u) uid) (users s) = None ->
    step stripe cur op s = (Responded (errorResponse "User not found" 404), s).
Proof.
  intros stripe cur op uid s Hreq Hnone.
  destruct op; simpl in Hreq; try discriminate Hreq;
    injection Hreq as ->;
    unfold step, respond, authenticate, bind, User_findById;
    rewrite Hnone; reflexivity.
Qed.

Lemma unknown_user_reaches_no_handler_witness :
  step Fixtures.gateway "usd" (OpCancelBooking 99 2) (Fixtures.store_booked B_confirmed 1)
  = (Responded (errorResponse "User not found" 404), Fixtures.store_booked B_confirmed 1).
Proof.
  apply (@unknown_user_reaches_no_handler Fixtures.gateway "usd" (OpCancelBooking 99 2)
           99%nat (Fixtures.store_booked B_confirmed 1)).
  - reflexivity.
  - reflexivity.
Defined.

(** ** Events dated before the server started *)

Lemma eventSchema_validate_past loaded e :
  date e < loaded -> eventSchema_validate loaded e = false.
Proof.
  intros Hpast. unfold eventSchema_validate.
  replace (loaded <=? date e) with false by (symmetry; apply Z.leb_gt; lia).
  reflexivity.
Qed.

(** X25.  The [min] of the [date] validator is the time the schema was
    loaded, so an event dated before that can no longer be saved.
    [cancelEvent] throws for it and changes nothing, whoever calls; and
    [confirmBooking] of a pending, paid booking for it, whose user does not
    take part yet, saves the booking as confirmed, then fails to save the
    event: it answers 500, and the participant is not counted. *)
Theorem past_event_is_not_saved :
  forall (req_user : User) (id eid hid : ObjectId) (s : Store) (event : Event),
    Event_lookup s eid = Some event ->
    date event < loadedAt s ->
    (snd (cancelEvent eid hid s) = s
     /\ exists msg, fst (cancelEvent eid hid s) = Throw msg)
    /\ (forall booking,
          Booking_lookup s id = Some booking ->
          eventId booking = eid ->
          is_host_or_admin booking req_user = true ->
          status booking = B_pending ->
          paymentStatus booking = P_paid ->
          bookingSchema_validate booking = true ->
          includes (participants event) (userId booking) = false ->
          confirmBooking req_user id s
          = (Ok (errorResponse ValidationError_Event 500),
             with_bookings (update_by_id b_id (b_id booking) (set_status B_confirmed)) s)).
Proof.
  intros req_user id eid hid s event Hev Hpast. split.
  - change (wp (cancelEvent eid hid)
              (fun r s' => s' = s /\ exists msg, r = Throw msg) s).
    unfold cancelEvent. wp_prim. wp_prim. cbn beta iota. rewrite Hev.
    wp_all; eauto.
    exfalso.
    match goal with
    | H : eventSchema_validate _ _ = true |- _ =>
        rewrite eventSchema_validate_past in H by exact Hpast; discriminate H
    end.
  - intros booking Hl <- Hacc Hst Hpaid Hvb Hnew.
    apply wp_result. unfold confirmBooking.
    wp_prim. wp_prim. wp_prim. cbn beta iota. rewrite Hl, Hacc, Hst, Hpaid.
    cbn [negb BookingStatus_eqb PaymentStatus_eqb]. cbn iota.
    wp_prim. apply wp_Booking_save; intros Hv;
      [|rewrite status_not_validated in Hv; congruence].
    wp_prim. wp_prim. cbn beta iota.
    change (Event_lookup (with_bookings _ s) (eventId booking))
      with (Event_lookup s (eventId booking)).
    rewrite Hev. cbn beta iota. rewrite Hnew. simpl negb. cbn iota.
    wp_prim. wp_prim. apply wp_Event_save; intros Hve.
    + exfalso. simpl loadedAt in Hve.
      rewrite eventSchema_validate_past in Hve by exact Hpast. discriminate Hve.
    + wp_prim. auto.
Qed.

Lemma past_event_is_not_saved_witness :
  (snd (cancelEvent 1 10
          (mkStore [Fixtures.paid_event 5 0 E_open []]
             [Fixtures.alice_booking B_pending 1] Fixtures.people 100 2000))
     = mkStore [Fixtures.paid_event 5 0 E_open []]
         [Fixtures.alice_booking B_pending 1] Fixtures.people 100 2000
   /\ exists msg,
        fst (cancelEvent 1 10
               (mkStore [Fixtures.paid_event 5 0 E_open []]
                  [Fixtures.alice_booking B_pending 1] Fixtures.people 100 2000))
        = Throw msg)
  /\ confirmBooking Fixtures.host 2
       (mkStore [Fixtures.paid_event 5 0 E_open []]
          [Fixtures.alice_booking B_pending 1] Fixtures.people 100 2000)
     = (Ok (errorResponse ValidationError_Event 500),
        mkStore [Fixtures.paid_event 5 0 E_open []]
          [Fixtures.alice_booking B_confirmed 1] Fixtures.people 100 2000).
Proof.
  destruct (@past_event_is_not_saved Fixtures.host 2%nat 1%nat 10%nat
              (mkStore [Fixtures.paid_event 5 0 E_open []]
                 [Fixtures.alice_booking B_pending 1] Fixtures.people 100 2000)
              (Fixtures.paid_event 5 0 E_open [])) as [Hcancel Hconfirm].
  - reflexivity.
  - simpl. lia.
  - split; [exact Hcancel|].
    apply (Hconfirm (Fixtures.alice_booking B_pending 1)); reflexivity.
Defined.
